(** * Ambassador project scaffolding script ([setup.py])

    A shallow embedding of the script and of the parts of the Python
    runtime it relies on ([str.replace], [re.fullmatch] on the two
    patterns of the script, [os.path.join], text-mode file input and
    output, [shutil] and [os] tree operations, [input], [print] and
    [exit]), followed by the properties of the specification.

    Conventions of the model
    - a Python [str] is a [string]; the encoding of files is not modelled;
    - the platform is POSIX: [os.sep] is the slash and text-mode output
      leaves line ends as written;
    - the file tree is relative to the working directory, without
      symbolic links and without permission bits. *)

From Stdlib Require Import Bool Arith Lia List Ascii String.
Import ListNotations.
Local Open Scope list_scope.
Local Open Scope string_scope.

Set Implicit Arguments.

(* ===================================================================== *)
(** * Python strings *)
(* ===================================================================== *)

Module Str.

Definition chr (n : nat) : ascii := ascii_of_nat n.

Definition LF : ascii := chr 10.
Definition CR : ascii := chr 13.
Definition dquote : string := String (chr 34) EmptyString.
Definition crlf : string := String CR (String LF EmptyString).

(** [s.startswith(p)] *)
Fixpoint startswith (p s : string) : bool :=
  match p, s with
  | EmptyString, _ => true
  | String _ _, EmptyString => false
  | String a p', String b s' => Ascii.eqb a b && startswith p' s'
  end.

(** [old in s] *)
Fixpoint contains (old s : string) : bool :=
  startswith old s
  || match s with
     | EmptyString => false
     | String _ s' => contains old s'
     end.

(** [str.replace] for a non-empty [old]: scan from the left; at a
    position where [old] starts, emit [new] and resume after the
    occurrence ([skip] counts the characters of the occurrence still
    to pass); elsewhere copy the character. *)
Fixpoint replace_scan (old new : string) (skip : nat) (s : string) : string :=
  match s with
  | EmptyString => EmptyString
  | String a s' =>
      match skip with
      | S k => replace_scan old new k s'
      | O =>
          if startswith old s
          then new ++ replace_scan old new (pred (String.length old)) s'
          else String a (replace_scan old new 0 s')
      end
  end.

(** [str.replace] for the empty [old]: [new] goes before every character
    and at the end. *)
Fixpoint insert_after_each (new s : string) : string :=
  match s with
  | EmptyString => EmptyString
  | String a s' => String a (new ++ insert_after_each new s')
  end.

(** [s.replace(old, new)] *)
Definition replace (s old new : string) : string :=
  match old with
  | EmptyString => new ++ insert_after_each new s
  | String _ _ => replace_scan old new 0 s
  end.

(** [s.split(sep)] for a one-character separator. *)
Fixpoint split (sep : ascii) (s : string) : list string :=
  match s with
  | EmptyString => [EmptyString]
  | String a s' =>
      if Ascii.eqb a sep then EmptyString :: split sep s'
      else match split sep s' with
           | h :: t => String a h :: t
           | [] => [String a EmptyString]
           end
  end.

(** [sep.join(parts)] *)
Definition join (sep : string) (parts : list string) : string :=
  String.concat sep parts.

(** [s.endswith(c)] for a character. *)
Fixpoint endswith_char (c : ascii) (s : string) : bool :=
  match s with
  | EmptyString => false
  | String a EmptyString => Ascii.eqb a c
  | String _ s' => endswith_char c s'
  end.

(** [c in s] for a character. *)
Fixpoint has_char (c : ascii) (s : string) : bool :=
  match s with
  | EmptyString => false
  | String a s' => Ascii.eqb a c || has_char c s'
  end.

Fixpoint all_chars (p : ascii -> bool) (s : string) : bool :=
  match s with
  | EmptyString => true
  | String a s' => p a && all_chars p s'
  end.

(** Universal newlines of text-mode input: [\r\n] and a lone [\r] are
    read as [\n]. [after_cr] tells that the previous character was a
    carriage return. *)
Fixpoint universal_newlines_from (after_cr : bool) (s : string) : string :=
  match s with
  | EmptyString => EmptyString
  | String a s' =>
      if Ascii.eqb a CR then String LF (universal_newlines_from true s')
      else if Ascii.eqb a LF && after_cr then universal_newlines_from false s'
      else String a (universal_newlines_from false s')
  end.

Definition universal_newlines (s : string) : string :=
  universal_newlines_from false s.

End Str.

(* ===================================================================== *)
(** * Regular expressions of the [re] module *)
(* ===================================================================== *)

Module Re.

(** An item of a bracketed character set: a range [lo-hi] or one
    character.  Ranges compare code points; without flags a set matches
    exactly the characters it lists. *)
Inductive item : Type :=
| Range (lo hi : ascii)
| Single (c : ascii).

(** The syntax the two patterns of the script use (sets, an escaped
    literal, sequence and star; a group only records what it matched),
    with [Nothing], [Eps] and [Alt] for the residuals of matching. *)
Inductive regex : Type :=
| Nothing
| Eps
| Chars (items : list item)
| Lit (c : ascii)
| Seq (r1 r2 : regex)
| Alt (r1 r2 : regex)
| Star (r : regex).

Definition in_item (a : ascii) (i : item) : bool :=
  match i with
  | Range lo hi =>
      (nat_of_ascii lo <=? nat_of_ascii a)%nat && (nat_of_ascii a <=? nat_of_ascii hi)%nat
  | Single c => Ascii.eqb a c
  end.

Definition in_set (items : list item) (a : ascii) : bool :=
  existsb (in_item a) items.

Fixpoint nullable (r : regex) : bool :=
  match r with
  | Nothing => false
  | Eps => true
  | Chars _ => false
  | Lit _ => false
  | Seq r1 r2 => nullable r1 && nullable r2
  | Alt r1 r2 => nullable r1 || nullable r2
  | Star _ => true
  end.

(** What is left of [r] to match after the character [a]. *)
Fixpoint residual (a : ascii) (r : regex) : regex :=
  match r with
  | Nothing => Nothing
  | Eps => Nothing
  | Chars items => if in_set items a then Eps else Nothing
  | Lit c => if Ascii.eqb a c then Eps else Nothing
  | Seq r1 r2 =>
      if nullable r1
      then Alt (Seq (residual a r1) r2) (residual a r2)
      else Seq (residual a r1) r2
  | Alt r1 r2 => Alt (residual a r1) (residual a r2)
  | Star r1 => Seq (residual a r1) (Star r1)
  end.

(** [re.fullmatch(r, s) is not None] *)
Fixpoint fullmatch (r : regex) (s : string) : bool :=
  match s with
  | EmptyString => nullable r
  | String a s' => fullmatch (residual a r) s'
  end.

(** The language of a pattern. *)
Inductive Matches : regex -> string -> Prop :=
| M_eps : Matches Eps EmptyString
| M_chars items a : in_set items a = true -> Matches (Chars items) (String a EmptyString)
| M_lit c : Matches (Lit c) (String c EmptyString)
| M_seq r1 r2 s1 s2 : Matches r1 s1 -> Matches r2 s2 -> Matches (Seq r1 r2) (s1 ++ s2)
| M_alt_l r1 r2 s : Matches r1 s -> Matches (Alt r1 r2) s
| M_alt_r r1 r2 s : Matches r2 s -> Matches (Alt r1 r2) s
| M_star_nil r : Matches (Star r) EmptyString
| M_star_app r s1 s2 : Matches r s1 -> Matches (Star r) s2 -> Matches (Star r) (s1 ++ s2).

End Re.

(* ===================================================================== *)
(** * The validators of the script *)
(* ===================================================================== *)

Definition upper_AZ : Re.item := Re.Range "A" "Z".
Definition lower_az : Re.item := Re.Range "a" "z".
Definition digit_09 : Re.item := Re.Range "0" "9".
Definition underscore : Re.item := Re.Single "_".

(** The word set a-zA-Z0-9_ starred. *)
Definition word_tail : Re.regex :=
  Re.Star (Re.Chars [lower_az; upper_AZ; digit_09; underscore]).

(** The pattern of [is_valid_java_class_name]: the set A-Z, then the
    word set starred. *)
Definition class_name_pattern : Re.regex :=
  Re.Seq (Re.Chars [upper_AZ]) word_tail.

(** The pattern of [is_valid_java_package]: a group holding a segment
    (a set a-z, then the word set starred), then a starred group holding
    an escaped dot and a segment. *)
Definition package_pattern : Re.regex :=
  Re.Seq (Re.Seq (Re.Chars [lower_az]) word_tail)
         (Re.Star (Re.Seq (Re.Lit ".") (Re.Seq (Re.Chars [lower_az]) word_tail))).

Definition is_valid_java_class_name (name : string) : bool :=
  Re.fullmatch class_name_pattern name.

Definition is_valid_java_package (package : string) : bool :=
  Re.fullmatch package_pattern package.

(* ===================================================================== *)
(** * The process: standard streams, file tree, exceptions *)
(* ===================================================================== *)

Module Os.

(** A path as the operating system resolves it: its components below the
    working directory. *)
Definition path := list string.

Inductive node : Type :=
| File (content : string)
| Dir.

(** The file tree: what is found at each path.  The empty path is the
    working directory. *)
Definition tree := path -> option node.

(** The calls of the script that reach the file tree, with the path
    arguments as the script passes them. *)
Inductive event : Type :=
| EvRmtree (p : string)
| EvRemove (p : string)
| EvMove (src dst : string)
| EvMakedirs (p : string)
| EvRead (p : string)
| EvWrite (p : string).

Record world : Type := mkWorld {
  stdin : list string;   (* the lines still to be read by [input] *)
  stdout : string;       (* everything printed so far *)
  fs : tree;
  trace : list event     (* the file-tree calls made so far, oldest first *)
}.

(** The exceptions the modelled runtime raises.  An [OSError] carries the
    text of [str(e)]. *)
Inductive exn : Type :=
| SystemExit (code : option nat)
| EOFError
| FileNotFoundError (msg : string)
| NotADirectoryError (msg : string)
| IsADirectoryError (msg : string)
| FileExistsError (msg : string)
| ShutilError (msg : string).

(** [isinstance(e, Exception)]: [SystemExit] derives from [BaseException]
    only. *)
Definition is_Exception (e : exn) : bool :=
  match e with
  | SystemExit _ => false
  | _ => true
  end.

(** [str(e)] *)
Definition str (e : exn) : string :=
  match e with
  | SystemExit None => "None"
  | SystemExit (Some _) => "" (* never formatted by the script *)
  | EOFError => "EOF when reading a line"
  | FileNotFoundError m | NotADirectoryError m | IsADirectoryError m
  | FileExistsError m | ShutilError m => m
  end.

(** The errors of the operating system, with the text the interpreter
    gives them for a path written plainly. *)
Definition enoent (raw : string) : exn :=
  FileNotFoundError ("[Errno 2] No such file or directory: '" ++ raw ++ "'").
Definition enotdir (raw : string) : exn :=
  NotADirectoryError ("[Errno 20] Not a directory: '" ++ raw ++ "'").
Definition eisdir (raw : string) : exn :=
  IsADirectoryError ("[Errno 21] Is a directory: '" ++ raw ++ "'").
Definition eexist (raw : string) : exn :=
  FileExistsError ("[Errno 17] File exists: '" ++ raw ++ "'").

Inductive outcome (A : Type) : Type :=
| Returned (a : A) (w : world)
| Raised (e : exn) (w : world).

Arguments Returned {A} a w.
Arguments Raised {A} e w.

(** A Python computation: from a world to a value or a raised exception,
    with the world it leaves behind in both cases. *)
Definition Py (A : Type) : Type := world -> outcome A.

Definition ret {A} (a : A) : Py A := fun w => Returned a w.

Definition bind {A B} (c : Py A) (k : A -> Py B) : Py B :=
  fun w =>
    match c w with
    | Returned a w' => k a w'
    | Raised e w' => Raised e w'
    end.

Definition raise {A} (e : exn) : Py A := fun w => Raised e w.

(** [try: body except ...]: [handler e] is the clause that catches [e], if
    one does. *)
Definition try_except {A} (body : Py A) (handler : exn -> option (Py A)) : Py A :=
  fun w =>
    match body w with
    | Returned a w' => Returned a w'
    | Raised e w' =>
        match handler e with
        | Some h => h w'
        | None => Raised e w'
        end
    end.

(** [if cond: body] *)
Definition when (cond : bool) (body : Py unit) : Py unit :=
  if cond then body else ret tt.

Definition final_world {A} (o : outcome A) : world :=
  match o with
  | Returned _ w => w
  | Raised _ w => w
  end.

Definition returned {A} (o : outcome A) : bool :=
  match o with
  | Returned _ _ => true
  | Raised _ _ => false
  end.

(** The exit status of the interpreter: zero at the end of the script and
    for [SystemExit] with no code, the code when one is given, and one for
    any other exception that reaches the top (after the traceback). *)
Definition exit_status (o : outcome unit) : nat :=
  match o with
  | Returned _ _ => 0
  | Raised (SystemExit None) _ => 0
  | Raised (SystemExit (Some n)) _ => n
  | Raised _ _ => 1
  end.

End Os.

Import Os.

Declare Scope py_scope.
Delimit Scope py_scope with py.
Notation "x <- c ;; k" := (bind c (fun x => k))
  (at level 61, c at next level, right associativity) : py_scope.
Notation "c ;; k" := (bind c (fun _ => k))
  (at level 61, right associativity) : py_scope.
Local Open Scope py_scope.

(* ===================================================================== *)
(** * Built-in and library calls *)
(* ===================================================================== *)

(** [print(s)] *)
Definition print (s : string) : Py unit :=
  fun w => Returned tt (mkWorld (stdin w) (stdout w ++ s ++ String Str.LF "") (fs w) (trace w)).

(** [input(prompt)]: the prompt goes to standard output, then one line is
    read without its line end; at end of input [EOFError] is raised. *)
Definition input (prompt : string) : Py string :=
  fun w =>
    let out := stdout w ++ prompt in
    match stdin w with
    | line :: rest => Returned line (mkWorld rest out (fs w) (trace w))
    | [] => Raised EOFError (mkWorld [] out (fs w) (trace w))
    end.

(** [exit()] of the [site] module, called without an argument. *)
Definition exit : Py unit := raise (SystemExit None).

Definition record (e : event) : Py unit :=
  fun w => Returned tt (mkWorld (stdin w) (stdout w) (fs w) (trace w ++ [e])).

Definition get_fs : Py tree := fun w => Returned (fs w) w.

Definition set_fs (t : tree) : Py unit :=
  fun w => Returned tt (mkWorld (stdin w) (stdout w) t (trace w)).

(** ** Paths *)

Definition os_sep : string := "/".

(** [posixpath.join] of two paths. *)
Definition join2 (a b : string) : string :=
  if Str.startswith os_sep b then b
  else if (a =? "") || Str.endswith_char "/" a
       then a ++ b
       else a ++ os_sep ++ b.

(** [os.path.join(a, *ps)] *)
Definition os_path_join (a : string) (ps : list string) : string :=
  fold_left join2 ps a.

(** Path resolution: the components between slashes; empty components
    (doubled slashes) are dropped.  The components [.] and [..] are not
    interpreted; no path of the script has them. *)
Definition components (p : string) : path :=
  filter (fun c => negb (c =? "")) (Str.split "/" p).

Fixpoint path_eqb (p q : path) : bool :=
  match p, q with
  | [], [] => true
  | x :: p', y :: q' => (x =? y) && path_eqb p' q'
  | _, _ => false
  end.

(** [strip_prefix p q] is [Some r] when [q] is [p] followed by [r]. *)
Fixpoint strip_prefix (p q : path) : option path :=
  match p, q with
  | [], _ => Some q
  | _ :: _, [] => None
  | x :: p', y :: q' => if x =? y then strip_prefix p' q' else None
  end.

Definition is_under (p q : path) : bool :=
  match strip_prefix p q with
  | Some _ => true
  | None => false
  end.

Definition parent (p : path) : path := removelast p.

Definition lookup (t : tree) (p : path) : option node :=
  match p with
  | [] => Some Dir
  | _ :: _ => t p
  end.

(** The proper prefixes of a path, the working directory apart. *)
Fixpoint ancestors_from (cur rest : path) : list path :=
  match rest with
  | [] => []
  | [_] => []
  | x :: rest' => (cur ++ [x])%list :: ancestors_from (cur ++ [x])%list rest'
  end.

Definition is_file (t : tree) (p : path) : bool :=
  match lookup t p with
  | Some (File _) => true
  | _ => false
  end.

(** The error of reaching a path that is not there: ENOTDIR when a file
    stands on the way, ENOENT otherwise. *)
Definition missing (t : tree) (raw : string) : exn :=
  if existsb (is_file t) (ancestors_from [] (components raw))
  then enotdir raw
  else enoent raw.

(** ** Changes of the tree *)

Definition put (t : tree) (p : path) (n : node) : tree :=
  fun q => if path_eqb q p then Some n else t q.

Definition remove_subtree (t : tree) (p : path) : tree :=
  fun q => if is_under p q then None else t q.

Definition rename_subtree (t : tree) (src dst : path) : tree :=
  fun q =>
    match strip_prefix dst q with
    | Some rest => t (src ++ rest)%list
    | None => if is_under src q then None else t q
    end.

(** ** File-tree calls *)

(** [shutil.rmtree(raw)]: the directory and all below it go; a missing
    path or a plain file raises. *)
Definition shutil_rmtree (raw : string) : Py unit :=
  record (EvRmtree raw) ;;
  t <- get_fs ;;
  let p := components raw in
  match lookup t p with
  | Some Dir => set_fs (remove_subtree t p)
  | Some (File _) => raise (enotdir raw)
  | None => raise (missing t raw)
  end.

(** [os.remove(raw)] *)
Definition os_remove (raw : string) : Py unit :=
  record (EvRemove raw) ;;
  t <- get_fs ;;
  let p := components raw in
  match lookup t p with
  | Some (File _) => set_fs (remove_subtree t p)
  | Some Dir => raise (eisdir raw)
  | None => raise (missing t raw)
  end.

(** [os.rename(src, real_dst)] as [shutil.move] calls it, with the errors
    its fallback (copy, then delete) ends in.  The fallback succeeds where
    the rename fails only across file systems or, for a directory, when
    the parent of the destination is missing; neither is modelled. *)
Definition rename_to (raw_src raw_dst : string) (s real : path) : Py unit :=
  t <- get_fs ;;
  match lookup t s with
  | None => raise (missing t raw_src)
  | Some n =>
      if path_eqb s real then ret tt
      else if is_under s real then
        match n with
        | Dir => raise (ShutilError ("Cannot move a directory '" ++ raw_src
                                      ++ "' into itself '" ++ raw_dst ++ "'."))
        | File _ => raise (enotdir raw_dst)
        end
      else
        match lookup t (parent real) with
        | Some Dir =>
            match n, lookup t real with
            | Dir, Some (File _) =>
                raise (eexist raw_dst)
            | File _, Some Dir =>
                raise (eisdir raw_dst)
            | _, _ => set_fs (rename_subtree t s real)
            end
        | _ => raise (missing t raw_dst)
        end
  end.

(** [shutil.move(src, dst)]: into [dst] when it is a directory, onto [dst]
    otherwise. *)
Definition shutil_move (src dst : string) : Py unit :=
  record (EvMove src dst) ;;
  t <- get_fs ;;
  let s := components src in
  let d := components dst in
  match lookup t d with
  | Some Dir =>
      if path_eqb s d then ret tt
      else
        let real := (d ++ [last s ""])%list in
        match lookup t real with
        | Some _ =>
            raise (ShutilError ("Destination path '" ++ os_path_join dst [last s ""]
                                ++ "' already exists"))
        | None => rename_to src dst s real
        end
  | _ => rename_to src dst s d
  end.

(** The directories [os.makedirs] creates along [rest], below [cur]. *)
Fixpoint makedirs_from (raw : string) (t : tree) (cur rest : path) : exn + tree :=
  match rest with
  | [] => inr t
  | x :: rest' =>
      let cur' := (cur ++ [x])%list in
      match lookup t cur' with
      | Some Dir => makedirs_from raw t cur' rest'
      | Some (File _) =>
          inl (match rest' with
               | [] => eexist raw
               | _ :: _ => enotdir raw
               end)
      | None => makedirs_from raw (put t cur' Dir) cur' rest'
      end
  end.

(** [os.makedirs(raw, exist_ok=True)] *)
Definition os_makedirs (raw : string) : Py unit :=
  record (EvMakedirs raw) ;;
  t <- get_fs ;;
  if raw =? "" then raise (enoent "")
  else
    match makedirs_from raw t [] (components raw) with
    | inr t' => set_fs t'
    | inl e => raise e
    end.

(** [with open(raw, 'r') as f: f.read()]: the text of the file, line ends
    translated. *)
Definition read_text (raw : string) : Py string :=
  record (EvRead raw) ;;
  t <- get_fs ;;
  if raw =? "" then raise (missing t raw)
  else
    match lookup t (components raw) with
    | Some (File c) => ret (Str.universal_newlines c)
    | Some Dir => raise (eisdir raw)
    | None => raise (missing t raw)
    end.

(** [with open(raw, 'w') as f: f.write(content)]: the file is created in
    an existing directory, or emptied, and then holds [content]. *)
Definition write_text (raw : string) (content : string) : Py unit :=
  record (EvWrite raw) ;;
  t <- get_fs ;;
  let p := components raw in
  if raw =? "" then raise (missing t raw)
  else
    match lookup t p with
    | Some Dir => raise (eisdir raw)
    | Some (File _) => set_fs (put t p (File content))
    | None =>
        match lookup t (parent p) with
        | Some Dir => set_fs (put t p (File content))
        | _ => raise (missing t raw)
        end
    end.

(* ===================================================================== *)
(** * The script *)
(* ===================================================================== *)

(** Lines 30 to 36: the two [except] clauses of [replace_in_file]. *)
Definition replace_in_file_except (filename : string) (e : exn) : option (Py unit) :=
  match e with
  | FileNotFoundError _ =>
      Some (print ("Error: " ++ filename ++ " not found.") ;; exit)
  | _ =>
      if is_Exception e
      then Some (print ("An error occurred: " ++ str e) ;; exit)
      else None
  end.

(** Lines 21 to 36. *)
Definition replace_in_file (filename original replacement : string) : Py unit :=
  try_except
    (content <- read_text filename ;;
     let updated_content := Str.replace content original replacement in
     write_text filename updated_content)
    (replace_in_file_except filename).

(** Lines 62 to 71: the parts of the template that are not shipped. *)
Definition pruning : Py unit :=
  shutil_rmtree (os_path_join "Ambassador" [".git"]) ;;
  shutil_rmtree (os_path_join "Ambassador" ["docs"]) ;;
  shutil_rmtree (os_path_join "Ambassador" ["misc"]) ;;
  shutil_rmtree (os_path_join "Ambassador" ["src"; "com"]) ;;
  os_remove (os_path_join "Ambassador" [".gitignore"]) ;;
  os_remove (os_path_join "Ambassador" [".gitattributes"]) ;;
  os_remove (os_path_join "Ambassador" ["Doxyfile"]) ;;
  os_remove (os_path_join "Ambassador" ["README.md"]) ;;
  os_remove (os_path_join "Ambassador" [".idea"; "vcs.xml"]).

(** Lines 74 to 100. *)
Definition renaming (project_name : string) : Py unit :=
  shutil_move "Ambassador" project_name ;;
  shutil_move
    (os_path_join project_name ["Ambassador.iml"])
    (os_path_join project_name [project_name ++ ".iml"]) ;;
  shutil_move
    (os_path_join project_name [".idea"; "artifacts"; "ambassador_template.xml"])
    (os_path_join project_name [".idea"; "artifacts"; project_name ++ ".xml"]) ;;
  shutil_move
    (os_path_join project_name [".idea"; "runConfigurations"; "ambassador_template.xml"])
    (os_path_join project_name [".idea"; "runConfigurations"; project_name ++ ".xml"]).

(** Lines 102 to 106. *)
Definition folder_path (project_name package_name : string) : string :=
  Str.replace (os_path_join project_name ["src"; package_name]) "." os_sep.

(** Lines 107 to 114. *)
Definition make_package_dirs (project_name package_name : string) : Py unit :=
  os_makedirs (folder_path project_name package_name) ;;
  os_makedirs (os_path_join (folder_path project_name package_name) ["controllers"]).

(** Lines 116 to 184. *)
Definition substituting (project_name package_name : string) : Py unit :=
  replace_in_file
    (os_path_join project_name ["META-INF"; "MANIFEST.MF"])
    "com.example.app.WebApplication"
    (package_name ++ "." ++ project_name) ;;
  replace_in_file
    (os_path_join project_name [".idea"; "artifacts"; project_name ++ ".xml"])
    "ambassador-template"
    project_name ;;
  replace_in_file
    (os_path_join project_name [".idea"; "artifacts"; project_name ++ ".xml"])
    "ambassador_template"
    project_name ;;
  replace_in_file
    (os_path_join project_name [".idea"; "artifacts"; project_name ++ ".xml"])
    "Ambassador"
    project_name ;;
  replace_in_file
    (os_path_join project_name [".idea"; "runConfigurations"; project_name ++ ".xml"])
    "ambassador-template"
    project_name ;;
  replace_in_file
    (os_path_join project_name [".idea"; "runConfigurations"; project_name ++ ".xml"])
    "Ambassador"
    project_name ;;
  replace_in_file
    (os_path_join project_name [".idea"; "runConfigurations"; project_name ++ ".xml"])
    "com.example.app.WebApplication"
    (package_name ++ "." ++ project_name) ;;
  replace_in_file
    (os_path_join project_name [".idea"; "scopes"; "web_ambassador.xml"])
    "com.example.app"
    package_name ;;
  replace_in_file
    (os_path_join project_name [".idea"; "modules.xml"])
    "Ambassador"
    project_name.

(** The pieces of a [write] argument: every line of the three texts ends
    in a carriage return and a line feed. *)
Definition crlf_lines (lines : list string) : string :=
  String.concat "" (map (fun l => l ++ Str.crlf) lines).

(** The text written at lines 189 to 222, one entry per line. *)
Definition project_java_lines (project_name package_name : string) : list string :=
  [ "package " ++ package_name ++ ";";
    "";
    "import " ++ package_name ++ ".controllers.DateTime;";
    "import " ++ package_name ++ ".controllers.HomeController;";
    "";
    "import web.ambassador.core.Kernel;";
    "import java.io.IOException;";
    "";
    "public class " ++ project_name ++ " {";
    "    public static void main(String[] args) {";
    "        try(Kernel framework = new Kernel(8080)) {";
    "            framework.setupShutdownHook(";
    "                ()-> System.out.println(" ++ Str.dquote ++ "Server stopped successfully!" ++ Str.dquote ++ "),";
    "                ()-> System.out.println(" ++ Str.dquote ++ "Cannot shutdown server!" ++ Str.dquote ++ ")";
    "            );";
    "";
    "            framework.registerController(HomeController.class);";
    "            framework.registerController(DateTime.class);";
    "";
    "            framework.setMaxThreads(Runtime.getRuntime().availableProcessors() * 2);";
    "            framework.start();";
    "        }";
    "        catch(IOException e) {";
    "            System.err.println(" ++ Str.dquote ++ "Failed to start server: " ++ Str.dquote ++ " + e.getMessage());";
    "            System.exit(1);";
    "        }";
    "        catch(Exception e) {";
    "            System.err.println(" ++ Str.dquote ++ "Unexpected error: " ++ Str.dquote ++ " + e.getMessage());";
    "            System.exit(1);";
    "        }";
    "    }";
    "}" ].

(** The text written at lines 230 to 319, one entry per line. *)
Definition home_controller_java_lines (package_name : string) : list string :=
  [ "package " ++ package_name ++ ".controllers;";
    "";
    "import web.ambassador.annotations.Controller;";
    "import web.ambassador.annotations.Method;";
    "import web.ambassador.db.DatabaseManager;";
    "import web.ambassador.http.Request;";
    "import web.ambassador.http.Response;";
    "import web.ambassador.view.Component;";
    "import web.ambassador.view.Dom;";
    "import web.ambassador.view.ViewContent;";
    "";
    "@Controller";
    "public class HomeController implements Component {";
    "    @Override";
    "    @Method";
    "    public ViewContent index(Request request, Response response, DatabaseManager dbManager) {";
    "        return Dom.createPage(";
    "            Dom.head(";
    "                Dom.title(" ++ Str.dquote ++ "Your Ambassador homepage!" ++ Str.dquote ++ "),";
    "                Dom.stylesheet(" ++ Str.dquote ++ "assets/styles/bootstrap.min.css" ++ Str.dquote ++ ")";
    "            ),";
    "            Dom.body(";
    "                Dom.br(),";
    "                Dom.div(";
    "                    Dom.img()";
    "                        .src(" ++ Str.dquote ++ "assets/images/logo.png" ++ Str.dquote ++ ")";
    "                        .attr(" ++ Str.dquote ++ "alt" ++ Str.dquote ++ ", " ++ Str.dquote ++ "Logo" ++ Str.dquote ++ ")";
    "                        .attr(" ++ Str.dquote ++ "width" ++ Str.dquote ++ ", " ++ Str.dquote ++ "300" ++ Str.dquote ++ ")";
    "                        .addClass(" ++ Str.dquote ++ "mt-4" ++ Str.dquote ++ "),";
    "                    Dom.h2(" ++ Str.dquote ++ "Welcome to your Ambassador homepage!" ++ Str.dquote ++ ")";
    "                        .addClass(" ++ Str.dquote ++ "mt-4" ++ Str.dquote ++ "),";
    "                    Dom.p(";
    "                        Dom.noTag(" ++ Str.dquote ++ "Server date and time is: " ++ Str.dquote ++ "),";
    "                        Dom.span().id(" ++ Str.dquote ++ "datetime" ++ Str.dquote ++ ")";
    "                    ),";
    "                    Dom.div(";
    "                        Dom.a(";
    "                            " ++ Str.dquote ++ "https://nthnn.github.io/Ambassador" ++ Str.dquote ++ ",";
    "                            " ++ Str.dquote ++ "Learn More" ++ Str.dquote ++ ",";
    "                            " ++ Str.dquote ++ "_blank" ++ Str.dquote;
    "                        ).addClass(";
    "                            " ++ Str.dquote ++ "btn" ++ Str.dquote ++ ",";
    "                            " ++ Str.dquote ++ "btn-primary" ++ Str.dquote ++ ",";
    "                            " ++ Str.dquote ++ "d-block-inline" ++ Str.dquote ++ ",";
    "                            " ++ Str.dquote ++ "mx-1" ++ Str.dquote;
    "                        ),";
    "                        Dom.a(";
    "                            " ++ Str.dquote ++ "https://github.com/nthnn/Ambassador" ++ Str.dquote ++ ",";
    "                            " ++ Str.dquote ++ "GitHub" ++ Str.dquote ++ ",";
    "                            " ++ Str.dquote ++ "_blank" ++ Str.dquote;
    "                        ).addClass(";
    "                            " ++ Str.dquote ++ "btn" ++ Str.dquote ++ ",";
    "                            " ++ Str.dquote ++ "btn-primary" ++ Str.dquote ++ ",";
    "                            " ++ Str.dquote ++ "d-block-inline" ++ Str.dquote ++ ",";
    "                            " ++ Str.dquote ++ "mx-1" ++ Str.dquote;
    "                        )";
    "                    ),";
    "                    Dom.script(";
    "                        " ++ Str.dquote ++ "javascript" ++ Str.dquote ++ ",";
    "                        " ++ Str.dquote ++ Str.dquote ++ Str.dquote;
    "                        const fetchDatetime = async ()=> {";
    "                            const response = await fetch('/datetime', {";
    "                                method: 'POST',";
    "                                headers: {";
    "                                    'Content-Type': 'application/json'";
    "                                },";
    "                                body: JSON.stringify({})";
    "                            });";
    "";
    "                            if(!response.ok)";
    "                                return;";
    "";
    "                            const data = await response.json();";
    "                            const datetimeElement = document.getElementById('datetime');";
    "";
    "                            datetimeElement.textContent = data.datetime || " ++ Str.dquote ++ "No data received" ++ Str.dquote ++ ";";
    "                        };";
    "";
    "                        fetchDatetime();";
    "                        setInterval(fetchDatetime, 1000);";
    "                        " ++ Str.dquote ++ Str.dquote ++ Str.dquote;
    "                    )";
    "                ).attr(" ++ Str.dquote ++ "align" ++ Str.dquote ++ ", " ++ Str.dquote ++ "center" ++ Str.dquote ++ ")";
    "                    .addClass(" ++ Str.dquote ++ "mt-4" ++ Str.dquote ++ ")";
    "            )";
    "        );";
    "    }";
    "}" ].

(** The text written at lines 327 to 365, one entry per line. *)
Definition date_time_java_lines (package_name : string) : list string :=
  [ "package " ++ package_name ++ ".controllers;";
    "";
    "import web.ambassador.annotations.Controller;";
    "import web.ambassador.annotations.Method;";
    "import web.ambassador.db.DatabaseManager;";
    "import web.ambassador.enums.HttpStatusCode;";
    "import web.ambassador.enums.MethodType;";
    "import web.ambassador.http.Request;";
    "import web.ambassador.http.Response;";
    "import web.ambassador.view.Component;";
    "import web.ambassador.view.EmptyView;";
    "import web.ambassador.view.JsonContent;";
    "import web.ambassador.view.ViewContent;";
    "";
    "import java.util.Date;";
    "import java.util.HashMap;";
    "import java.util.Map;";
    "";
    "@Controller(path=" ++ Str.dquote ++ "/datetime" ++ Str.dquote ++ ")";
    "public class DateTime implements Component {";
    "    @Override";
    "    @Method(MethodType.POST)";
    "    public ViewContent index(Request request, Response response, DatabaseManager dbManager) {";
    "        Map<String, Object> data = new HashMap<>();";
    "        data.put(" ++ Str.dquote ++ "datetime" ++ Str.dquote ++ ", new Date());";
    "";
    "        return JsonContent.fromMap(data);";
    "    }";
    "";
    "    @Method";
    "    public ViewContent redirect(Request request, Response response, DatabaseManager dbManager) {";
    "        response.setStatusCode(HttpStatusCode.PERMANENT_REDIRECT);";
    "        response.getHeaders().put(" ++ Str.dquote ++ "Location" ++ Str.dquote ++ ", " ++ Str.dquote ++ "/" ++ Str.dquote ++ ");";
    "";
    "        return new EmptyView();";
    "    }";
    "}" ].

(** Lines 186 to 365. *)
Definition stamping (project_name package_name : string) : Py unit :=
  write_text
    (os_path_join (folder_path project_name package_name) [project_name ++ ".java"])
    (crlf_lines (project_java_lines project_name package_name)) ;;
  write_text
    (os_path_join (folder_path project_name package_name) ["controllers"; "HomeController.java"])
    (crlf_lines (home_controller_java_lines package_name)) ;;
  write_text
    (os_path_join (folder_path project_name package_name) ["controllers"; "DateTime.java"])
    (crlf_lines (date_time_java_lines package_name)).

Definition invalid_project_name_message : string :=
  "Invalid project name. It must start "
  ++ "with an uppercase letter and contain "
  ++ "only alphanumeric characters or underscores.".

Definition invalid_package_name_message : string :=
  "Invalid package name. It must start "
  ++ "with a lowercase letter and be "
  ++ "dot-separated.".

(** What follows the two prompts, lines 62 to 365. *)
Definition scaffold (project_name package_name : string) : Py unit :=
  pruning ;;
  renaming project_name ;;
  make_package_dirs project_name package_name ;;
  substituting project_name package_name ;;
  stamping project_name package_name.

(** The whole script. *)
Definition main : Py unit :=
  project_name <- input "Project name: " ;;
  when (negb (is_valid_java_class_name project_name))
    (print invalid_project_name_message ;; exit) ;;
  package_name <- input "Project package: " ;;
  when (negb (is_valid_java_package package_name))
    (print invalid_package_name_message ;; exit) ;;
  scaffold project_name package_name.

Unset Implicit Arguments.

(* ===================================================================== *)
(** * The words of the specification *)
(* ===================================================================== *)

(** ** Occurrences and literal replace-all *)

(** [old] occurs in [s] at offset [i]. *)
Definition occurs_at (old s : string) (i : nat) : Prop :=
  exists a b, s = a ++ old ++ b /\ String.length a = i.

(** [literal_replace_all old new s r]: [r] is [s] with every
    non-overlapping occurrence of [old] replaced by [new], the occurrences
    taken leftmost first, the search resuming after each one.  The empty
    token occurs before every character and at the end. *)
Inductive literal_replace_all (old new : string) : string -> string -> Prop :=
| lra_none s :
    old <> "" ->
    (forall i, ~ occurs_at old s i) ->
    literal_replace_all old new s s
| lra_leftmost pre rest r :
    old <> "" ->
    (forall j, occurs_at old (pre ++ old ++ rest) j -> String.length pre <= j) ->
    literal_replace_all old new rest r ->
    literal_replace_all old new (pre ++ old ++ rest) (pre ++ new ++ r)
| lra_empty_end :
    old = "" ->
    literal_replace_all old new "" new
| lra_empty_char a s r :
    old = "" ->
    literal_replace_all old new s r ->
    literal_replace_all old new (String a s) (new ++ String a r).

(** ** The two grammars *)

Definition code_between (lo hi a : ascii) : bool :=
  (nat_of_ascii lo <=? nat_of_ascii a)%nat && (nat_of_ascii a <=? nat_of_ascii hi)%nat.

Definition uppercase_letter (a : ascii) : bool := code_between "A" "Z" a.
Definition lowercase_letter (a : ascii) : bool := code_between "a" "z" a.
Definition decimal_digit (a : ascii) : bool := code_between "0" "9" a.

Definition alphanumeric_or_underscore (a : ascii) : bool :=
  uppercase_letter a || lowercase_letter a || decimal_digit a || Ascii.eqb a "_".

(** First character an uppercase ASCII letter, remaining characters
    alphanumeric or underscore. *)
Definition project_name_grammar (s : string) : bool :=
  match s with
  | EmptyString => false
  | String a rest => uppercase_letter a && Str.all_chars alphanumeric_or_underscore rest
  end.

(** A segment begins with a lowercase ASCII letter and goes on with
    alphanumeric characters or underscores. *)
Definition package_segment_grammar (seg : string) : bool :=
  match seg with
  | EmptyString => false
  | String a rest => lowercase_letter a && Str.all_chars alphanumeric_or_underscore rest
  end.

(** One or more dot-separated segments. *)
Definition package_path_grammar (s : string) : bool :=
  forallb package_segment_grammar (Str.split "." s).

(** The segments after the first, each behind its dot. *)
Fixpoint dotted (segs : list string) : string :=
  match segs with
  | [] => ""
  | g :: segs' => "." ++ g ++ dotted segs'
  end.

(** Characters that no project name may hold: hyphen, dot, space, tab,
    line feed and carriage return. *)
Definition excluded_characters : list ascii :=
  ["-"; "."; " "; Str.chr 9; Str.LF; Str.CR]%char.

(** ** Paths and file contents *)

(** A path component: not empty and without a slash. *)
Definition component (b : string) : bool :=
  negb (b =? "") && negb (Str.has_char "/" b).

(** The text of a file as the script reads it, when the path holds a
    file. *)
Definition file_text (t : tree) (raw : string) : option string :=
  match lookup t (components raw) with
  | Some (File b) => Some (Str.universal_newlines b)
  | _ => None
  end.

(** The content a file holds, as written. *)
Definition stored (t : tree) (raw : string) : option string :=
  match lookup t (components raw) with
  | Some (File b) => Some b
  | _ => None
  end.

(** ** Reading a written file by lines *)

(** A line without the carriage return that ends it. *)
Fixpoint strip_cr (s : string) : string :=
  match s with
  | EmptyString => EmptyString
  | String a EmptyString => if Ascii.eqb a Str.CR then EmptyString else s
  | String a s' => String a (strip_cr s')
  end.

(** The lines of a text, cut at line feeds. *)
Definition text_lines (s : string) : list string :=
  map strip_cr (Str.split Str.LF s).

Definition white_space (a : ascii) : bool :=
  Ascii.eqb a " " || Ascii.eqb a (Str.chr 9) || Ascii.eqb a Str.CR || Ascii.eqb a Str.LF.

Definition blank (l : string) : bool := Str.all_chars white_space l.

Definition first_line (s : string) : option string := hd_error (text_lines s).

Definition first_nonblank_line (s : string) : option string :=
  find (fun l => negb (blank l)) (text_lines s).

(** ** The placeholders of the manifest and the diagnostics *)

Definition placeholder_class : string := "com.example.app.WebApplication".
Definition placeholder_package : string := "com.example.app".
Definition placeholder_tail : string := ".example.app".

(** The two diagnostics of [replace_in_file]. *)
Definition diagnostic (diag : string) : Prop :=
  (exists filename, diag = "Error: " ++ filename ++ " not found.")
  \/ (exists e, is_Exception e = true /\ diag = "An error occurred: " ++ str e).

(* ===================================================================== *)
(** * Properties of computations *)
(* ===================================================================== *)

(** The world after the two prompts. *)
Definition after_prompts (w : world) (rest : list string) : world :=
  mkWorld rest ((stdout w ++ "Project name: ") ++ "Project package: ") (fs w) (trace w).

(** A computation that either returns without printing, or prints one
    diagnostic line and exits without a status. *)
Definition returns_or_exits (c : Py unit) : Prop :=
  forall w,
    (exists w', c w = Returned tt w' /\ stdout w' = stdout w)
    \/ (exists w' diag,
          c w = Raised (SystemExit None) w'
          /\ stdout w' = stdout w ++ diag ++ String Str.LF ""
          /\ diagnostic diag).

(** A computation that leaves every directory in place, however it ends. *)
Definition keeps_dirs (c : Py unit) : Prop :=
  forall w q, lookup (fs w) q = Some Dir -> lookup (fs (final_world (c w))) q = Some Dir.

(** A computation that leaves what is at [q] as it is, however it ends. *)
Definition keeps_path (q : path) (c : Py unit) : Prop :=
  forall w, fs (final_world (c w)) q = fs w q.

(* ===================================================================== *)
(** * Sample worlds *)
(* ===================================================================== *)

(** A tree given by its entries. *)
Definition tree_of (entries : list (path * node)) : tree :=
  fun q =>
    match find (fun e => path_eqb (fst e) q) entries with
    | Some e => Some (snd e)
    | None => None
    end.

Definition sample_manifest : string :=
  "Manifest-Version: 1.0" ++ Str.crlf
  ++ "Main-Class: com.example.app.WebApplication" ++ Str.crlf.

(** A working directory holding a template with every path the script
    touches; the file contents are samples. *)
Definition sample_template : tree :=
  tree_of
    [ (["Ambassador"], Dir);
      (["Ambassador"; ".git"], Dir);
      (["Ambassador"; ".git"; "HEAD"], File "ref: refs/heads/main");
      (["Ambassador"; "docs"], Dir);
      (["Ambassador"; "docs"; "index.html"], File "<html></html>");
      (["Ambassador"; "misc"], Dir);
      (["Ambassador"; "src"], Dir);
      (["Ambassador"; "src"; "com"], Dir);
      (["Ambassador"; "src"; "com"; "example"], Dir);
      (["Ambassador"; "src"; "web"], Dir);
      (["Ambassador"; ".gitignore"], File "out/");
      (["Ambassador"; ".gitattributes"], File "* text=auto");
      (["Ambassador"; "Doxyfile"], File "PROJECT_NAME = Ambassador");
      (["Ambassador"; "README.md"], File "# Ambassador");
      (["Ambassador"; "Ambassador.iml"], File "<module/>");
      (["Ambassador"; "META-INF"], Dir);
      (["Ambassador"; "META-INF"; "MANIFEST.MF"], File sample_manifest);
      (["Ambassador"; ".idea"], Dir);
      (["Ambassador"; ".idea"; "vcs.xml"], File "<project/>");
      (["Ambassador"; ".idea"; "modules.xml"],
         File "<module filepath=$PROJECT_DIR$/Ambassador.iml />");
      (["Ambassador"; ".idea"; "artifacts"], Dir);
      (["Ambassador"; ".idea"; "artifacts"; "ambassador_template.xml"],
         File "<artifact name=ambassador-template><root id=Ambassador /></artifact>");
      (["Ambassador"; ".idea"; "runConfigurations"], Dir);
      (["Ambassador"; ".idea"; "runConfigurations"; "ambassador_template.xml"],
         File "<configuration name=ambassador-template main=com.example.app.WebApplication />");
      (["Ambassador"; ".idea"; "scopes"], Dir);
      (["Ambassador"; ".idea"; "scopes"; "web_ambassador.xml"],
         File "<scope pattern=com.example.app..* />") ].

Definition sample_world (lines : list string) : world :=
  mkWorld lines "" sample_template [].

(** A working directory with one file. *)
Definition one_file_world (name content : string) : world :=
  mkWorld [] "" (tree_of [([name], File content)]) [].

(** The sample template with its documentation directory taken away. *)
Definition sample_without_docs : tree :=
  remove_subtree sample_template ["Ambassador"; "docs"].

(** The sample template with its manifest taken away. *)
Definition sample_without_manifest : tree :=
  remove_subtree sample_template ["Ambassador"; "META-INF"; "MANIFEST.MF"].

(** The sample template once pruned, renamed and given its package
    directories, for the project name Foo. *)
Definition sample_before_substituting : world :=
  final_world ((pruning ;; renaming "Foo" ;; make_package_dirs "Foo" "org.acme.widgets")
                 (sample_world [])).

Definition foo_java : string := crlf_lines (project_java_lines "Foo" "org.bar").
Definition foo_home_controller : string := crlf_lines (home_controller_java_lines "org.bar").
Definition foo_date_time : string := crlf_lines (date_time_java_lines "org.bar").

(* ===================================================================== *)
(** * Plans, targets and rules of the stages *)
(* ===================================================================== *)





























(* ===================================================================== *)
(** * The model on examples *)
(* ===================================================================== *)

Example replace_ex1 : Str.replace "a.b.c" "." "/" = "a/b/c".
Proof. reflexivity. Qed.
Example replace_ex2 : Str.replace "aaa" "aa" "b" = "ba".
Proof. reflexivity. Qed.
Example replace_ex3 : Str.replace "abc" "" "-" = "-a-b-c-".
Proof. reflexivity. Qed.
Example split_ex1 : Str.split "." "com..app" = ["com"; ""; "app"].
Proof. reflexivity. Qed.

Example class_name_ex1 : is_valid_java_class_name "MyApp" = true.
Proof. reflexivity. Qed.
Example class_name_ex2 : is_valid_java_class_name "myApp" = false.
Proof. reflexivity. Qed.
Example class_name_ex3 : is_valid_java_class_name "My-App" = false.
Proof. reflexivity. Qed.
Example class_name_ex4 : is_valid_java_class_name "" = false.
Proof. reflexivity. Qed.
Example package_ex1 : is_valid_java_package "com.example.app" = true.
Proof. reflexivity. Qed.
Example package_ex2 : is_valid_java_package "Com.example" = false.
Proof. reflexivity. Qed.
Example package_ex3 : is_valid_java_package "com..app" = false.
Proof. reflexivity. Qed.

(* ===================================================================== *)
(** * Facts on strings *)
(* ===================================================================== *)

Lemma append_nil_r (s : string) : s ++ "" = s.
Proof. induction s as [|a s IH]; simpl; [reflexivity | now rewrite IH]. Qed.

Lemma append_assoc (a b c : string) : (a ++ b) ++ c = a ++ b ++ c.
Proof. induction a as [|x a IH]; simpl; [reflexivity | now rewrite IH]. Qed.

Lemma length_append (a b : string) :
  String.length (a ++ b) = String.length a + String.length b.
Proof. induction a as [|x a IH]; simpl; [reflexivity | now rewrite IH]. Qed.

Lemma append_inv_head (a b c : string) : a ++ b = a ++ c -> b = c.
Proof.
  induction a as [|x a IH]; simpl; intros H; [exact H|].
  injection H as H. now apply IH.
Qed.

Lemma startswith_iff (p s : string) :
  Str.startswith p s = true <-> exists r, s = p ++ r.
Proof.
  revert s. induction p as [|a p IH]; intros s; simpl.
  - split; [intros _; now exists s | reflexivity].
  - destruct s as [|b s].
    + split; [discriminate | intros [r H]; discriminate].
    + rewrite andb_true_iff, Ascii.eqb_eq, IH. split.
      * intros [-> [r ->]]. now exists r.
      * intros [r H]. injection H as -> ->. split; [reflexivity | now exists r].
Qed.

Lemma startswith_append (p r : string) : Str.startswith p (p ++ r) = true.
Proof. apply startswith_iff. now exists r. Qed.

Lemma occurs_at_zero (old s : string) :
  occurs_at old s 0 <-> Str.startswith old s = true.
Proof.
  rewrite startswith_iff. split.
  - intros (a & b & -> & Ha). destruct a; [|discriminate]. now exists b.
  - intros [r ->]. now exists "", r.
Qed.

Lemma occurs_at_succ (old : string) (x : ascii) (s : string) (i : nat) :
  occurs_at old (String x s) (S i) <-> occurs_at old s i.
Proof.
  split.
  - intros (a & b & H & Ha). destruct a as [|y a]; [discriminate|].
    simpl in H, Ha. injection H as -> ->. injection Ha as Ha. now exists a, b.
  - intros (a & b & -> & Ha). exists (String x a), b. simpl. now rewrite Ha.
Qed.

Lemma contains_iff (old s : string) :
  Str.contains old s = true <-> exists i, occurs_at old s i.
Proof.
  induction s as [|x s IH].
  - simpl. rewrite orb_false_r, <- occurs_at_zero. split.
    + intros H. now exists 0.
    + intros [i (a & b & H & Ha)]. exists a, b. split; [exact H|].
      destruct a; [reflexivity | discriminate].
  - change (Str.contains old (String x s))
      with (Str.startswith old (String x s) || Str.contains old s).
    rewrite orb_true_iff, IH, <- occurs_at_zero. split.
    + intros [H | [i H]]; [now exists 0 | exists (S i); now apply occurs_at_succ].
    + intros [[|i] H]; [now left | right; exists i; now apply occurs_at_succ in H].
Qed.

Lemma contains_false_iff (old s : string) :
  Str.contains old s = false <-> forall i, ~ occurs_at old s i.
Proof.
  rewrite <- not_true_iff_false, contains_iff. split.
  - intros H i Hi. apply H. now exists i.
  - intros H [i Hi]. exact (H i Hi).
Qed.

Lemma contains_append_intro (old a b : string) :
  Str.contains old (a ++ old ++ b) = true.
Proof. apply contains_iff. exists (String.length a), a, b. now split. Qed.

(** ** The scan of [str.replace] *)

Section ReplaceScan.

Variables (o : ascii) (old' new : string).
Let old := String o old'.

Lemma replace_scan_skip (x s : string) :
  Str.replace_scan old new (String.length x) (x ++ s) = Str.replace_scan old new 0 s.
Proof.
  induction x as [|a x IH]; simpl; [|exact IH].
  destruct s; reflexivity.
Qed.

Lemma replace_scan_absent (s : string) :
  Str.contains old s = false -> Str.replace_scan old new 0 s = s.
Proof.
  induction s as [|a s IH]; [reflexivity|].
  change (Str.contains old (String a s))
    with (Str.startswith old (String a s) || Str.contains old s).
  rewrite orb_false_iff. intros [H1 H2].
  change (Str.replace_scan old new 0 (String a s))
    with (if Str.startswith old (String a s)
          then new ++ Str.replace_scan old new (pred (String.length old)) s
          else String a (Str.replace_scan old new 0 s)).
  rewrite H1, IH by exact H2. reflexivity.
Qed.

Lemma replace_scan_leftmost (pre rest : string) :
  (forall j, occurs_at old (pre ++ old ++ rest) j -> String.length pre <= j) ->
  Str.replace_scan old new 0 (pre ++ old ++ rest)
  = pre ++ new ++ Str.replace_scan old new 0 rest.
Proof.
  induction pre as [|b pre IH]; intros Hleft.
  - change ("" ++ old ++ rest) with (String o (old' ++ rest)).
    change (Str.replace_scan old new 0 (String o (old' ++ rest)))
      with (if Str.startswith old (String o (old' ++ rest))
            then new ++ Str.replace_scan old new (String.length old') (old' ++ rest)
            else String o (Str.replace_scan old new 0 (old' ++ rest))).
    change (String o (old' ++ rest)) with (old ++ rest).
    rewrite startswith_append, replace_scan_skip. reflexivity.
  - change (String b pre ++ old ++ rest) with (String b (pre ++ old ++ rest)).
    change (Str.replace_scan old new 0 (String b (pre ++ old ++ rest)))
      with (if Str.startswith old (String b (pre ++ old ++ rest))
            then new ++ Str.replace_scan old new (pred (String.length old)) (pre ++ old ++ rest)
            else String b (Str.replace_scan old new 0 (pre ++ old ++ rest))).
    destruct (Str.startswith old (String b (pre ++ old ++ rest))) eqn:E.
    + apply occurs_at_zero in E. apply Hleft in E. simpl in E. lia.
    + rewrite IH; [reflexivity|].
      intros j Hj. apply (occurs_at_succ old b) in Hj. apply Hleft in Hj.
      simpl in Hj. lia.
Qed.

End ReplaceScan.

(** The leftmost occurrence of a token that occurs. *)
Lemma leftmost_occurrence (old s : string) :
  Str.contains old s = true ->
  exists pre rest,
    s = pre ++ old ++ rest
    /\ forall j, occurs_at old s j -> String.length pre <= j.
Proof.
  induction s as [|x s IH]; intros H.
  - simpl in H. rewrite orb_false_r in H. apply startswith_iff in H as [r Hr].
    exists "", r. split; [exact Hr | intros; simpl; lia].
  - change (Str.contains old (String x s))
      with (Str.startswith old (String x s) || Str.contains old s) in H.
    destruct (Str.startswith old (String x s)) eqn:E.
    + apply startswith_iff in E as [r Hr].
      exists "", r. split; [exact Hr | intros; simpl; lia].
    + simpl in H. destruct (IH H) as (pre & rest & -> & Hleft).
      exists (String x pre), rest. split; [reflexivity|].
      intros [|j] Hj.
      * apply occurs_at_zero in Hj. congruence.
      * apply occurs_at_succ in Hj. apply Hleft in Hj. simpl. lia.
Qed.

(* ===================================================================== *)
(** * [str.replace] is literal replace-all *)
(* ===================================================================== *)

Lemma replace_empty_unfold (new s : string) :
  Str.replace s "" new = new ++ Str.insert_after_each new s.
Proof. reflexivity. Qed.

Lemma literal_replace_all_sound (old new s r : string) :
  literal_replace_all old new s r -> r = Str.replace s old new.
Proof.
  induction 1 as [s Hne Hno | pre rest r Hne Hleft _ IH | He | a s r He _ IH].
  - destruct old as [|o old']; [congruence|]. unfold Str.replace.
    symmetry. apply replace_scan_absent. now apply contains_false_iff.
  - destruct old as [|o old']; [congruence|]. unfold Str.replace in *.
    rewrite replace_scan_leftmost by exact Hleft. now rewrite IH.
  - subst old. simpl. now rewrite append_nil_r.
  - subst old. rewrite replace_empty_unfold in *. simpl. now rewrite IH.
Qed.

Lemma literal_replace_all_complete_nonempty (old new : string) (n : nat) :
  old <> "" ->
  forall s, String.length s <= n -> literal_replace_all old new s (Str.replace s old new).
Proof.
  intros Hne. induction n as [|n IH]; intros s Hlen.
  - destruct s; [|simpl in Hlen; lia].
    destruct old as [|o old']; [congruence|]. simpl.
    apply lra_none; [exact Hne|]. apply contains_false_iff. reflexivity.
  - destruct (Str.contains old s) eqn:E.
    + destruct (leftmost_occurrence old s E) as (pre & rest & -> & Hleft).
      assert (Hrest : String.length rest <= n).
      { rewrite !length_append in Hlen. destruct old; [congruence|]. simpl in Hlen. lia. }
      specialize (IH rest Hrest).
      destruct old as [|o old']; [congruence|]. unfold Str.replace in *.
      rewrite replace_scan_leftmost by exact Hleft.
      now apply lra_leftmost.
    + destruct old as [|o old']; [congruence|]. unfold Str.replace.
      rewrite replace_scan_absent by exact E.
      apply lra_none; [exact Hne | now apply contains_false_iff].
Qed.

Lemma literal_replace_all_complete (old new s : string) :
  literal_replace_all old new s (Str.replace s old new).
Proof.
  destruct old as [|o old'] eqn:Eo.
  - induction s as [|a s IH].
    + simpl. rewrite append_nil_r. now apply lra_empty_end.
    + rewrite replace_empty_unfold in *. simpl. now apply lra_empty_char.
  - apply literal_replace_all_complete_nonempty with (n := String.length s);
      [discriminate | lia].
Qed.

(* ===================================================================== *)
(** * Matching decides the language of a pattern *)
(* ===================================================================== *)

Lemma append_eq_empty (a b : string) : a ++ b = "" -> a = "" /\ b = "".
Proof. destruct a; simpl; [intros ->; now split | discriminate]. Qed.

(** ** Inversion of matches *)

Lemma nothing_inv (s : string) : ~ Re.Matches Re.Nothing s.
Proof. intros H. inversion H. Qed.

Lemma eps_inv (s : string) : Re.Matches Re.Eps s -> s = "".
Proof. intros H. now inversion H. Qed.

Lemma chars_inv (items : list Re.item) (s : string) :
  Re.Matches (Re.Chars items) s ->
  exists a, s = String a "" /\ Re.in_set items a = true.
Proof. intros H. inversion H; subst. eauto. Qed.

Lemma lit_inv (c : ascii) (s : string) : Re.Matches (Re.Lit c) s -> s = String c "".
Proof. intros H. now inversion H. Qed.

Lemma seq_inv (r1 r2 : Re.regex) (s : string) :
  Re.Matches (Re.Seq r1 r2) s ->
  exists s1 s2, s = s1 ++ s2 /\ Re.Matches r1 s1 /\ Re.Matches r2 s2.
Proof. intros H. inversion H; subst. eauto. Qed.

Lemma alt_inv (r1 r2 : Re.regex) (s : string) :
  Re.Matches (Re.Alt r1 r2) s -> Re.Matches r1 s \/ Re.Matches r2 s.
Proof. intros H. inversion H; subst; auto. Qed.

Lemma nullable_iff (r : Re.regex) : Re.nullable r = true <-> Re.Matches r "".
Proof.
  induction r as [| | items | c | r1 IH1 r2 IH2 | r1 IH1 r2 IH2 | r IH]; simpl.
  - split; [discriminate | intros H; now apply nothing_inv in H].
  - split; [intros _; constructor | reflexivity].
  - split; [discriminate | intros H; apply chars_inv in H as (a & E & _); discriminate].
  - split; [discriminate | intros H; apply lit_inv in H; discriminate].
  - rewrite andb_true_iff, IH1, IH2. split.
    + intros [H1 H2]. exact (Re.M_seq H1 H2).
    + intros H. apply seq_inv in H as (s1 & s2 & E & H1 & H2).
      symmetry in E. apply append_eq_empty in E as [-> ->]. now split.
  - rewrite orb_true_iff, IH1, IH2. split.
    + intros [H | H]; [now apply Re.M_alt_l | now apply Re.M_alt_r].
    + apply alt_inv.
  - split; [intros _; constructor | reflexivity].
Qed.

(** A non-empty match of a star starts with a non-empty match of its
    body. *)
Lemma star_cons_inv (r : Re.regex) (a : ascii) (s : string) :
  Re.Matches (Re.Star r) (String a s) ->
  exists s1 s2, s = s1 ++ s2 /\ Re.Matches r (String a s1) /\ Re.Matches (Re.Star r) s2.
Proof.
  intros H. remember (Re.Star r) as r' eqn:Er. remember (String a s) as t eqn:Et.
  revert s Et.
  induction H as [| | | | | | |r0 s1 s2 H1 _ H2 IH2]; intros u Et; try discriminate.
  injection Er as ->.
  destruct s1 as [|b s1].
  - simpl in Et. now apply IH2.
  - simpl in Et. injection Et as Ea Es. subst. exists s1, s2. now repeat split.
Qed.

Lemma residual_iff (a : ascii) (r : Re.regex) :
  forall s, Re.Matches (Re.residual a r) s <-> Re.Matches r (String a s).
Proof.
  induction r as [| | items | c | r1 IH1 r2 IH2 | r1 IH1 r2 IH2 | r IH]; intros s; simpl.
  - split; intros H; now apply nothing_inv in H.
  - split; intros H; [now apply nothing_inv in H | apply eps_inv in H; discriminate].
  - destruct (Re.in_set items a) eqn:E; split; intros H.
    + apply eps_inv in H as ->. now constructor.
    + apply chars_inv in H as (b & Eb & Hb). injection Eb as Ea Es. subst. now constructor.
    + now apply nothing_inv in H.
    + apply chars_inv in H as (b & Eb & Hb). injection Eb as Ea Es. subst. congruence.
  - destruct (Ascii.eqb a c) eqn:E; split; intros H.
    + apply eps_inv in H as ->. apply Ascii.eqb_eq in E as ->. constructor.
    + apply lit_inv in H. injection H as Ea Es. subst. constructor.
    + now apply nothing_inv in H.
    + apply lit_inv in H. injection H as Ea Es. subst. rewrite Ascii.eqb_refl in E. discriminate.
  - assert (Hl : forall t, Re.Matches (Re.Seq (Re.residual a r1) r2) t ->
                           Re.Matches (Re.Seq r1 r2) (String a t)).
    { intros t H. apply seq_inv in H as (s1 & s2 & -> & H1 & H2).
      apply IH1 in H1. exact (Re.M_seq H1 H2). }
    assert (Hr : forall s1 s2, Re.Matches r1 (String a s1) -> Re.Matches r2 s2 ->
                               Re.Matches (Re.Seq (Re.residual a r1) r2) (s1 ++ s2)).
    { intros s1 s2 H1 H2. apply IH1 in H1. exact (Re.M_seq H1 H2). }
    destruct (Re.nullable r1) eqn:En; split; intros H.
    + apply alt_inv in H as [H | H].
      * now apply Hl.
      * apply IH2 in H. apply nullable_iff in En.
        exact (Re.M_seq (s1 := "") En H).
    + apply seq_inv in H as (s1 & s2 & E & H1 & H2).
      destruct s1 as [|b s1]; simpl in E.
      * subst s2. apply Re.M_alt_r. now apply IH2.
      * injection E as Ea Es. subst. apply Re.M_alt_l. now apply Hr.
    + now apply Hl.
    + apply seq_inv in H as (s1 & s2 & E & H1 & H2).
      destruct s1 as [|b s1]; simpl in E.
      * apply nullable_iff in H1. congruence.
      * injection E as Ea Es. subst. now apply Hr.
  - split; intros H.
    + apply alt_inv in H as [H | H]; [apply Re.M_alt_l; now apply IH1 | apply Re.M_alt_r; now apply IH2].
    + apply alt_inv in H as [H | H]; [apply Re.M_alt_l; now apply IH1 | apply Re.M_alt_r; now apply IH2].
  - split; intros H.
    + apply seq_inv in H as (s1 & s2 & -> & H1 & H2).
      apply IH in H1. exact (Re.M_star_app H1 H2).
    + apply star_cons_inv in H as (s1 & s2 & -> & H1 & H2).
      apply IH in H1. exact (Re.M_seq H1 H2).
Qed.

Lemma fullmatch_iff (r : Re.regex) (s : string) :
  Re.fullmatch r s = true <-> Re.Matches r s.
Proof.
  revert r. induction s as [|a s IH]; intros r; simpl.
  - apply nullable_iff.
  - rewrite IH. apply residual_iff.
Qed.

(* ===================================================================== *)
(** * The patterns and the two grammars *)
(* ===================================================================== *)

Lemma word_set_spec (a : ascii) :
  Re.in_set [lower_az; upper_AZ; digit_09; underscore] a = alphanumeric_or_underscore a.
Proof.
  change (Re.in_set [lower_az; upper_AZ; digit_09; underscore] a)
    with (lowercase_letter a
          || (uppercase_letter a || (decimal_digit a || (Ascii.eqb a "_" || false)))).
  unfold alphanumeric_or_underscore.
  destruct (lowercase_letter a), (uppercase_letter a), (decimal_digit a), (Ascii.eqb a "_");
    reflexivity.
Qed.

Lemma upper_set_spec (a : ascii) : Re.in_set [upper_AZ] a = uppercase_letter a.
Proof.
  change (Re.in_set [upper_AZ] a) with (uppercase_letter a || false).
  apply orb_false_r.
Qed.

Lemma lower_set_spec (a : ascii) : Re.in_set [lower_az] a = lowercase_letter a.
Proof.
  change (Re.in_set [lower_az] a) with (lowercase_letter a || false).
  apply orb_false_r.
Qed.

Lemma all_chars_ext (p q : ascii -> bool) (s : string) :
  (forall a, p a = q a) -> Str.all_chars p s = Str.all_chars q s.
Proof. intros H. induction s as [|a s IH]; simpl; [reflexivity | now rewrite H, IH]. Qed.

Lemma star_chars_iff (items : list Re.item) (s : string) :
  Re.Matches (Re.Star (Re.Chars items)) s <-> Str.all_chars (Re.in_set items) s = true.
Proof.
  split.
  - intros H. remember (Re.Star (Re.Chars items)) as r eqn:Er.
    induction H as [| | | | | | |r0 s1 s2 H1 _ _ IH2]; try discriminate.
    + reflexivity.
    + injection Er as ->. apply chars_inv in H1 as (a & -> & Ha).
      simpl. now rewrite Ha, IH2.
  - induction s as [|a s IH]; simpl; intros H.
    + constructor.
    + apply andb_true_iff in H as [Ha Hs].
      exact (Re.M_star_app (s1 := String a "") (Re.M_chars items a Ha) (IH Hs)).
Qed.

Lemma word_tail_iff (s : string) :
  Re.Matches word_tail s <-> Str.all_chars alphanumeric_or_underscore s = true.
Proof.
  unfold word_tail. rewrite star_chars_iff.
  now rewrite (all_chars_ext _ alphanumeric_or_underscore s word_set_spec).
Qed.

(** A set followed by the starred word set: one character of the set,
    then word characters. *)
Lemma head_and_tail_iff (items : list Re.item) (s : string) :
  Re.Matches (Re.Seq (Re.Chars items) word_tail) s
  <-> exists a rest, s = String a rest
                     /\ Re.in_set items a = true
                     /\ Str.all_chars alphanumeric_or_underscore rest = true.
Proof.
  split.
  - intros H. apply seq_inv in H as (s1 & s2 & -> & H1 & H2).
    apply chars_inv in H1 as (a & -> & Ha). apply word_tail_iff in H2.
    exists a, s2. now repeat split.
  - intros (a & rest & -> & Ha & Hrest).
    exact (Re.M_seq (s1 := String a "") (Re.M_chars items a Ha) (proj2 (word_tail_iff rest) Hrest)).
Qed.

Lemma class_name_iff (s : string) :
  is_valid_java_class_name s = true <-> project_name_grammar s = true.
Proof.
  unfold is_valid_java_class_name, class_name_pattern.
  rewrite fullmatch_iff, head_and_tail_iff. split.
  - intros (a & rest & -> & Ha & Hrest). simpl.
    now rewrite <- upper_set_spec, Ha, Hrest.
  - destruct s as [|a rest]; simpl; [discriminate|].
    rewrite andb_true_iff, <- upper_set_spec. intros [Ha Hrest].
    exists a, rest. now repeat split.
Qed.

Lemma segment_iff (s : string) :
  Re.Matches (Re.Seq (Re.Chars [lower_az]) word_tail) s <-> package_segment_grammar s = true.
Proof.
  rewrite head_and_tail_iff. split.
  - intros (a & rest & -> & Ha & Hrest). simpl.
    now rewrite <- lower_set_spec, Ha, Hrest.
  - destruct s as [|a rest]; simpl; [discriminate|].
    rewrite andb_true_iff, <- lower_set_spec. intros [Ha Hrest].
    exists a, rest. now repeat split.
Qed.

(** ** Splitting at a character and joining back *)

Lemma split_not_nil (sep : ascii) (s : string) : Str.split sep s <> [].
Proof.
  destruct s as [|a s]; simpl; [discriminate|].
  destruct (Ascii.eqb a sep); [discriminate|].
  destruct (Str.split sep s); discriminate.
Qed.

Lemma split_no_sep (sep : ascii) (a : string) :
  Str.has_char sep a = false -> Str.split sep a = [a].
Proof.
  induction a as [|x a IH]; simpl; [reflexivity|].
  rewrite orb_false_iff. intros [Hx Ha]. now rewrite Hx, IH.
Qed.

Lemma split_at_first_sep (sep : ascii) (a rest : string) :
  Str.has_char sep a = false ->
  Str.split sep (a ++ String sep rest) = a :: Str.split sep rest.
Proof.
  induction a as [|x a IH]; simpl.
  - intros _. now rewrite Ascii.eqb_refl.
  - rewrite orb_false_iff. intros [Hx Ha]. now rewrite Hx, IH.
Qed.

Lemma string_concat_cons (sep x : string) (xs : list string) :
  xs <> [] -> String.concat sep (x :: xs) = x ++ sep ++ String.concat sep xs.
Proof. destruct xs; [congruence | reflexivity]. Qed.

Lemma join_split (sep : ascii) (s : string) :
  Str.join (String sep "") (Str.split sep s) = s.
Proof.
  unfold Str.join. induction s as [|a s IH]; [reflexivity|].
  simpl Str.split. destruct (Ascii.eqb a sep) eqn:E.
  - apply Ascii.eqb_eq in E as ->.
    rewrite string_concat_cons by apply split_not_nil. simpl. now rewrite IH.
  - destruct (Str.split sep s) as [|h t] eqn:Es.
    + now apply split_not_nil in Es.
    + destruct t as [|h' t]; simpl in *; now rewrite <- IH.
Qed.

Lemma concat_dotted (seg : string) (segs : list string) :
  String.concat "." (seg :: segs) = seg ++ dotted segs.
Proof.
  revert seg. induction segs as [|g segs IH]; intros seg.
  - simpl. now rewrite append_nil_r.
  - rewrite string_concat_cons by discriminate. now rewrite IH.
Qed.

Lemma split_dotted (seg : string) (segs : list string) :
  Str.has_char "." seg = false ->
  forallb (fun g => negb (Str.has_char "." g)) segs = true ->
  Str.split "." (seg ++ dotted segs) = seg :: segs.
Proof.
  revert seg. induction segs as [|g segs IH]; intros seg Hseg Hsegs; simpl.
  - rewrite append_nil_r. now apply split_no_sep.
  - simpl in Hsegs. apply andb_true_iff in Hsegs as [Hg Hsegs].
    apply negb_true_iff in Hg.
    rewrite split_at_first_sep by exact Hseg. now rewrite IH.
Qed.

(** ** No dot in a name or in a segment *)

Lemma word_char_not_dot (a : ascii) :
  alphanumeric_or_underscore a = true -> Ascii.eqb a "." = false.
Proof.
  intros H. destruct (Ascii.eqb a ".") eqn:E; [|reflexivity].
  apply Ascii.eqb_eq in E. subst a. vm_compute in H. discriminate.
Qed.

Lemma word_chars_no_dot (s : string) :
  Str.all_chars alphanumeric_or_underscore s = true -> Str.has_char "." s = false.
Proof.
  induction s as [|a s IH]; simpl; [reflexivity|].
  rewrite andb_true_iff. intros [Ha Hs].
  now rewrite (word_char_not_dot a Ha), IH.
Qed.

Lemma upper_is_word (a : ascii) :
  uppercase_letter a = true -> alphanumeric_or_underscore a = true.
Proof. unfold alphanumeric_or_underscore. now intros ->. Qed.

Lemma lower_is_word (a : ascii) :
  lowercase_letter a = true -> alphanumeric_or_underscore a = true.
Proof. unfold alphanumeric_or_underscore. intros ->. now rewrite orb_true_r. Qed.

Lemma project_name_word_chars (s : string) :
  project_name_grammar s = true -> Str.all_chars alphanumeric_or_underscore s = true.
Proof.
  destruct s as [|a s]; simpl; [discriminate|].
  rewrite andb_true_iff. intros [Ha ->]. now rewrite (upper_is_word a Ha).
Qed.

Lemma segment_word_chars (s : string) :
  package_segment_grammar s = true -> Str.all_chars alphanumeric_or_underscore s = true.
Proof.
  destruct s as [|a s]; simpl; [discriminate|].
  rewrite andb_true_iff. intros [Ha ->]. now rewrite (lower_is_word a Ha).
Qed.

Lemma segments_no_dot (segs : list string) :
  forallb package_segment_grammar segs = true ->
  forallb (fun g => negb (Str.has_char "." g)) segs = true.
Proof.
  induction segs as [|g segs IH]; simpl; [reflexivity|].
  rewrite andb_true_iff. intros [Hg Hsegs].
  now rewrite (word_chars_no_dot g (segment_word_chars g Hg)), IH.
Qed.

(** ** The package pattern *)

Lemma star_segments_iff (t : string) :
  Re.Matches (Re.Star (Re.Seq (Re.Lit ".") (Re.Seq (Re.Chars [lower_az]) word_tail))) t
  <-> exists segs, t = dotted segs /\ forallb package_segment_grammar segs = true.
Proof.
  split.
  - intros H.
    remember (Re.Star (Re.Seq (Re.Lit ".") (Re.Seq (Re.Chars [lower_az]) word_tail))) as r eqn:Er.
    induction H as [| | | | | | |r0 s1 s2 H1 _ _ IH2]; try discriminate.
    + now exists [].
    + injection Er as ->. destruct (IH2 eq_refl) as (segs & -> & Hsegs).
      apply seq_inv in H1 as (d & g & -> & Hd & Hg).
      apply lit_inv in Hd as ->. apply segment_iff in Hg.
      exists (g :: segs). split; [reflexivity|]. simpl. now rewrite Hg.
  - intros (segs & -> & Hsegs). induction segs as [|g segs IH].
    + constructor.
    + simpl in Hsegs. apply andb_true_iff in Hsegs as [Hg Hsegs].
      apply segment_iff in Hg.
      change (dotted (g :: segs)) with (String "." g ++ dotted segs).
      apply Re.M_star_app; [|now apply IH].
      exact (Re.M_seq (s1 := String "." "") (Re.M_lit ".") Hg).
Qed.

Lemma package_iff (s : string) :
  is_valid_java_package s = true <-> package_path_grammar s = true.
Proof.
  unfold is_valid_java_package, package_pattern, package_path_grammar.
  rewrite fullmatch_iff. split.
  - intros H. apply seq_inv in H as (seg & t & -> & Hseg & Ht).
    apply segment_iff in Hseg. apply star_segments_iff in Ht as (segs & -> & Hsegs).
    rewrite split_dotted.
    + simpl. now rewrite Hseg.
    + exact (word_chars_no_dot seg (segment_word_chars seg Hseg)).
    + now apply segments_no_dot.
  - intros H. rewrite <- (join_split "." s). unfold Str.join.
    destruct (Str.split "." s) as [|seg segs] eqn:Es.
    + now apply split_not_nil in Es.
    + simpl in H. apply andb_true_iff in H as [Hseg Hsegs].
      rewrite concat_dotted. apply Re.M_seq.
      * now apply segment_iff.
      * apply star_segments_iff. now exists segs.
Qed.

(* ===================================================================== *)
(** * Replacing one character; joined paths and their components *)
(* ===================================================================== *)

Lemma replace_char_cons (c a : ascii) (new s : string) :
  Str.replace_scan (String c "") new 0 (String a s)
  = if Ascii.eqb c a
    then new ++ Str.replace_scan (String c "") new 0 s
    else String a (Str.replace_scan (String c "") new 0 s).
Proof. simpl. rewrite andb_true_r. reflexivity. Qed.

Lemma replace_char_append (c : ascii) (new a b : string) :
  Str.replace_scan (String c "") new 0 (a ++ b)
  = Str.replace_scan (String c "") new 0 a ++ Str.replace_scan (String c "") new 0 b.
Proof.
  induction a as [|x a IH]; [reflexivity|].
  change (String x a ++ b) with (String x (a ++ b)).
  rewrite !replace_char_cons, IH.
  destruct (Ascii.eqb c x); [now rewrite append_assoc | reflexivity].
Qed.

Lemma replace_char_absent (c : ascii) (new s : string) :
  Str.has_char c s = false -> Str.replace_scan (String c "") new 0 s = s.
Proof.
  induction s as [|a s IH]; [reflexivity|].
  simpl Str.has_char. rewrite orb_false_iff. intros [Ha Hs].
  rewrite replace_char_cons, Ascii.eqb_sym, Ha. now rewrite IH.
Qed.

Lemma replace_char_split (c : ascii) (new s : string) :
  Str.replace_scan (String c "") new 0 s = Str.join new (Str.split c s).
Proof.
  unfold Str.join. induction s as [|a s IH]; [reflexivity|].
  rewrite replace_char_cons, Ascii.eqb_sym. simpl Str.split.
  destruct (Ascii.eqb a c).
  - rewrite string_concat_cons by apply split_not_nil. now rewrite IH.
  - rewrite IH. destruct (Str.split c s) as [|h t] eqn:Es.
    + now apply split_not_nil in Es.
    + destruct t; reflexivity.
Qed.

Lemma endswith_char_append (c : ascii) (a b : string) :
  b <> "" -> Str.endswith_char c (a ++ b) = Str.endswith_char c b.
Proof.
  intros Hb. induction a as [|x a IH]; [reflexivity|].
  change (String x a ++ b) with (String x (a ++ b)).
  simpl. destruct (a ++ b) eqn:E; [|exact IH].
  apply append_eq_empty in E as [_ E]. congruence.
Qed.

Lemma endswith_char_absent (c : ascii) (s : string) :
  Str.has_char c s = false -> Str.endswith_char c s = false.
Proof.
  induction s as [|a s IH]; [reflexivity|].
  simpl. rewrite orb_false_iff. intros [Ha Hs].
  destruct s; [exact Ha | now apply IH].
Qed.

Lemma startswith_char_absent (c : ascii) (s : string) :
  Str.has_char c s = false -> Str.startswith (String c "") s = false.
Proof.
  destruct s as [|a s]; [reflexivity|].
  simpl. rewrite orb_false_iff, Ascii.eqb_sym. now intros [-> _].
Qed.

Lemma component_spec (b : string) :
  component b = true <-> b <> "" /\ Str.has_char "/" b = false.
Proof.
  unfold component. rewrite andb_true_iff, !negb_true_iff, String.eqb_neq. tauto.
Qed.

Lemma join2_component (a b : string) :
  a <> "" -> Str.endswith_char "/" a = false -> component b = true ->
  join2 a b = a ++ "/" ++ b.
Proof.
  intros Ha He Hb. apply component_spec in Hb as [Hb1 Hb2].
  unfold join2, os_sep. rewrite (startswith_char_absent "/" b Hb2), He.
  apply String.eqb_neq in Ha. now rewrite Ha.
Qed.

Lemma concat_merge_head (sep a b : string) (ps : list string) :
  String.concat sep ((a ++ sep ++ b) :: ps) = a ++ sep ++ String.concat sep (b :: ps).
Proof. destruct ps; simpl; [reflexivity | now rewrite !append_assoc]. Qed.

Lemma os_path_join_components (ps : list string) :
  forall a, a <> "" -> Str.endswith_char "/" a = false ->
            forallb component ps = true ->
            os_path_join a ps = String.concat "/" (a :: ps).
Proof.
  unfold os_path_join. induction ps as [|b ps IH]; intros a Ha He Hps; [reflexivity|].
  simpl in Hps. apply andb_true_iff in Hps as [Hb Hps].
  simpl fold_left. rewrite (join2_component a b Ha He Hb).
  pose proof (proj1 (component_spec b) Hb) as [Hb1 Hb2].
  rewrite IH.
  - rewrite concat_merge_head. now rewrite (string_concat_cons "/" a (b :: ps)) by discriminate.
  - destruct a; [congruence | discriminate].
  - rewrite endswith_char_append.
    + rewrite endswith_char_append by exact Hb1. now apply endswith_char_absent.
    + simpl. discriminate.
  - exact Hps.
Qed.

Lemma split_concat_components (ps : list string) :
  ps <> [] -> forallb component ps = true ->
  Str.split "/" (String.concat "/" ps) = ps.
Proof.
  induction ps as [|a ps IH]; [congruence|]. intros _ H.
  simpl in H. apply andb_true_iff in H as [Ha Hps].
  apply component_spec in Ha as [_ Ha].
  destruct ps as [|b ps].
  - simpl. now apply split_no_sep.
  - rewrite string_concat_cons by discriminate.
    change ("/" ++ String.concat "/" (b :: ps)) with (String "/" (String.concat "/" (b :: ps))).
    rewrite split_at_first_sep by exact Ha. rewrite IH; [reflexivity | discriminate | exact Hps].
Qed.

Lemma filter_components (ps : list string) :
  forallb component ps = true -> filter (fun c => negb (c =? "")) ps = ps.
Proof.
  induction ps as [|a ps IH]; [reflexivity|]. simpl.
  rewrite andb_true_iff. intros [Ha Hps]. unfold component in Ha.
  apply andb_true_iff in Ha as [-> _]. now rewrite IH.
Qed.

(** The components of a path written with single slashes. *)
Lemma components_concat (ps : list string) :
  forallb component ps = true -> components (String.concat "/" ps) = ps.
Proof.
  intros H. unfold components. destruct ps as [|a ps]; [reflexivity|].
  rewrite split_concat_components by (discriminate || exact H).
  now apply filter_components.
Qed.

(** ** What validation gives about the two inputs *)

Lemma word_chars_exclude (c : ascii) (s : string) :
  alphanumeric_or_underscore c = false ->
  Str.all_chars alphanumeric_or_underscore s = true ->
  Str.has_char c s = false.
Proof.
  intros Hc. induction s as [|a s IH]; simpl; [reflexivity|].
  rewrite andb_true_iff. intros [Ha Hs]. rewrite (IH Hs), orb_false_r.
  destruct (Ascii.eqb a c) eqn:E; [|reflexivity].
  apply Ascii.eqb_eq in E. congruence.
Qed.

Lemma word_chars_component (s : string) :
  s <> "" -> Str.all_chars alphanumeric_or_underscore s = true -> component s = true.
Proof.
  intros Hne Hs. apply component_spec. split; [exact Hne|].
  now apply word_chars_exclude.
Qed.

Lemma valid_name_grammar (name : string) :
  is_valid_java_class_name name = true ->
  name <> "" /\ Str.all_chars alphanumeric_or_underscore name = true.
Proof.
  intros H. apply class_name_iff in H. split.
  - destruct name; [discriminate H | discriminate].
  - now apply project_name_word_chars.
Qed.

Lemma valid_name_component (name : string) :
  is_valid_java_class_name name = true -> component name = true.
Proof. intros H. apply valid_name_grammar in H as [H1 H2]. now apply word_chars_component. Qed.

Lemma segment_component (g : string) :
  package_segment_grammar g = true -> component g = true.
Proof.
  intros H. apply word_chars_component; [|now apply segment_word_chars].
  destruct g; [discriminate H | discriminate].
Qed.

Lemma segments_components (segs : list string) :
  forallb package_segment_grammar segs = true -> forallb component segs = true.
Proof.
  induction segs as [|g segs IH]; simpl; [reflexivity|].
  rewrite andb_true_iff. intros [Hg Hsegs]. now rewrite (segment_component g Hg), IH.
Qed.

Lemma has_char_append (c : ascii) (a b : string) :
  Str.has_char c (a ++ b) = Str.has_char c a || Str.has_char c b.
Proof. induction a as [|x a IH]; simpl; [reflexivity | now rewrite IH, orb_assoc]. Qed.

Lemma has_char_concat (c : ascii) (sep : string) (ps : list string) :
  Str.has_char c sep = false ->
  forallb (fun p => negb (Str.has_char c p)) ps = true ->
  Str.has_char c (String.concat sep ps) = false.
Proof.
  intros Hsep. induction ps as [|p ps IH]; [reflexivity|]. simpl forallb.
  rewrite andb_true_iff, negb_true_iff. intros [Hp Hps].
  destruct ps as [|q ps]; [exact Hp|].
  rewrite string_concat_cons by discriminate.
  now rewrite !has_char_append, Hp, Hsep, IH.
Qed.

Lemma components_no_slash (ps : list string) :
  forallb component ps = true ->
  forallb (fun p => negb (Str.has_char "/" p)) ps = true.
Proof.
  induction ps as [|p ps IH]; simpl; [reflexivity|].
  rewrite andb_true_iff. intros [Hp Hps]. apply component_spec in Hp as [_ ->].
  now apply IH.
Qed.

Lemma valid_package_component (package : string) :
  is_valid_java_package package = true -> component package = true.
Proof.
  intros H. apply package_iff in H. unfold package_path_grammar in H.
  apply component_spec. split.
  - intros ->. discriminate H.
  - rewrite <- (join_split "." package). unfold Str.join.
    apply has_char_concat; [reflexivity|].
    now apply components_no_slash, segments_components.
Qed.

(* ===================================================================== *)
(** * C10: the stamping directory *)
(* ===================================================================== *)

Lemma folder_path_unfold (project_name package_name : string) :
  is_valid_java_class_name project_name = true ->
  is_valid_java_package package_name = true ->
  os_path_join project_name ["src"; package_name]
  = project_name ++ "/" ++ "src" ++ "/" ++ package_name.
Proof.
  intros Hn Hp.
  pose proof (valid_name_component project_name Hn) as Hc.
  pose proof (proj1 (component_spec project_name) Hc) as [Hne Hns].
  rewrite os_path_join_components.
  - reflexivity.
  - exact Hne.
  - now apply endswith_char_absent.
  - simpl. now rewrite (valid_package_component package_name Hp).
Qed.

(** C10. For a validated project name and a validated package, the
    directory computed by joining the project name, [src] and the package
    and then replacing every dot of the whole joined path by the separator
    is exactly the project name, [src] and the segments of the package,
    one below the other: the replacement leaves the first two components
    as they are, a validated project name having no dot. *)
Theorem folder_path_is_nested_segments (project_name package_name : string) :
  is_valid_java_class_name project_name = true ->
  is_valid_java_package package_name = true ->
  folder_path project_name package_name
  = Str.join os_sep (project_name :: "src" :: Str.split "." package_name)
  /\ components (folder_path project_name package_name)
     = project_name :: "src" :: Str.split "." package_name
  /\ Str.has_char "." project_name = false.
Proof.
  intros Hn Hp.
  pose proof (valid_name_grammar project_name Hn) as [Hne Hw].
  pose proof (word_chars_no_dot project_name Hw) as Hdot.
  assert (E : folder_path project_name package_name
              = Str.join os_sep (project_name :: "src" :: Str.split "." package_name)).
  { unfold folder_path. rewrite (folder_path_unfold project_name package_name Hn Hp).
    unfold Str.replace, os_sep, Str.join.
    rewrite !replace_char_append.
    rewrite (replace_char_absent "." "/" project_name Hdot).
    rewrite (replace_char_split "." "/" package_name). unfold Str.join.
    rewrite (string_concat_cons "/" project_name) by discriminate.
    rewrite (string_concat_cons "/" "src") by apply split_not_nil.
    reflexivity. }
  repeat split; [exact E | | exact Hdot].
  rewrite E. unfold Str.join, os_sep. apply components_concat.
  simpl. rewrite (valid_name_component project_name Hn). simpl.
  apply segments_components. now apply package_iff.
Qed.

Lemma folder_path_is_nested_segments_witness :
  folder_path "Foo" "org.bar" = "Foo/src/org/bar"
  /\ components (folder_path "Foo" "org.bar") = ["Foo"; "src"; "org"; "bar"]
  /\ Str.has_char "." "Foo" = false.
Proof.
  exact (folder_path_is_nested_segments "Foo" "org.bar" eq_refl eq_refl).
Defined.

(* ===================================================================== *)
(** * C6 and C7: the two validators *)
(* ===================================================================== *)

Lemma lower_not_upper (a : ascii) :
  lowercase_letter a = true -> uppercase_letter a = false.
Proof.
  unfold lowercase_letter, uppercase_letter, code_between.
  change (nat_of_ascii "a") with 97. change (nat_of_ascii "z") with 122.
  change (nat_of_ascii "A") with 65. change (nat_of_ascii "Z") with 90.
  generalize (nat_of_ascii a) as n. intros n H.
  apply andb_true_iff in H as [H1 H2]. apply Nat.leb_le in H1, H2.
  apply andb_false_iff. right. apply Nat.leb_gt. lia.
Qed.

Lemma excluded_not_word (c : ascii) :
  In c excluded_characters -> alphanumeric_or_underscore c = false.
Proof.
  intros H. simpl in H.
  destruct H as [<- | [<- | [<- | [<- | [<- | [<- | []]]]]]]; reflexivity.
Qed.

(** C6. [is_valid_java_class_name] accepts exactly the strings whose first
    character is an uppercase ASCII letter and whose other characters are
    alphanumeric or underscore; so it accepts MyApp and rejects the empty
    string, every string that starts with a lowercase letter and every
    string with a hyphen, a dot or white space in it. *)
Theorem class_name_validator_is_grammar (s : string) :
  is_valid_java_class_name s = project_name_grammar s
  /\ is_valid_java_class_name "MyApp" = true
  /\ is_valid_java_class_name "" = false
  /\ (forall a rest, s = String a rest -> lowercase_letter a = true ->
                     is_valid_java_class_name s = false)
  /\ (forall c, In c excluded_characters -> Str.has_char c s = true ->
                is_valid_java_class_name s = false).
Proof.
  assert (E : is_valid_java_class_name s = project_name_grammar s).
  { apply eq_iff_eq_true. apply class_name_iff. }
  repeat split; [exact E | | ].
  - intros a rest -> Ha. rewrite E. simpl. now rewrite (lower_not_upper a Ha).
  - intros c Hc Hs. apply not_true_iff_false. intros Hv.
    apply valid_name_grammar in Hv as [_ Hw].
    rewrite (word_chars_exclude c s (excluded_not_word c Hc) Hw) in Hs. discriminate.
Qed.

(** C7. [is_valid_java_package] accepts exactly the strings made of one or
    more segments separated by dots, each segment beginning with a
    lowercase ASCII letter and going on with alphanumeric characters or
    underscores; so it accepts com.example.app and rejects Com.example and
    com..app. *)
Theorem package_validator_is_grammar (s : string) :
  is_valid_java_package s = package_path_grammar s
  /\ is_valid_java_package "com.example.app" = true
  /\ is_valid_java_package "Com.example" = false
  /\ is_valid_java_package "com..app" = false.
Proof.
  repeat split. apply eq_iff_eq_true. apply package_iff.
Qed.

(* ===================================================================== *)
(** * Facts on the file tree and on [replace_in_file] *)
(* ===================================================================== *)

Ltac py_unfold :=
  cbv [replace_in_file try_except bind read_text write_text record get_fs
         set_fs raise ret print exit when fs stdin stdout trace].

Lemma path_eqb_eq (p q : path) : path_eqb p q = true <-> p = q.
Proof.
  revert q. induction p as [|x p IH]; intros [|y q]; simpl; try (split; congruence).
  rewrite andb_true_iff, String.eqb_eq, IH. split; [intros [-> ->]; reflexivity|].
  intros H. injection H as -> ->. now split.
Qed.

Lemma path_eqb_refl (p : path) : path_eqb p p = true.
Proof. now apply path_eqb_eq. Qed.

Lemma lookup_put_same (t : tree) (p : path) (n : node) :
  p <> [] -> lookup (put t p n) p = Some n.
Proof.
  intros Hp. destruct p as [|x p]; [congruence|].
  unfold lookup, put. now rewrite path_eqb_refl.
Qed.

Lemma lookup_put_other (t : tree) (p q : path) (n : node) :
  path_eqb q p = false -> lookup (put t p n) q = lookup t q.
Proof.
  intros H. destruct q as [|y q]; [reflexivity|].
  unfold lookup, put. now rewrite H.
Qed.

Lemma file_text_nonempty (t : tree) (raw c : string) :
  file_text t raw = Some c -> (raw =? "") = false /\ components raw <> [].
Proof.
  unfold file_text. intros H. split.
  - destruct raw; [discriminate H | reflexivity].
  - intros E. rewrite E in H. discriminate H.
Qed.

Lemma except_exits (f : string) (e : exn) (w : world) :
  is_Exception e = true ->
  exists h diag,
    replace_in_file_except f e = Some h
    /\ h w = Raised (SystemExit None)
               (mkWorld (stdin w) (stdout w ++ diag ++ String Str.LF "") (fs w) (trace w))
    /\ (diag = "Error: " ++ f ++ " not found."
        \/ diag = "An error occurred: " ++ str e).
Proof.
  intros He. destruct e; try discriminate He;
    (eexists; eexists; split; [reflexivity | split; [reflexivity | auto]]).
Qed.

Lemma replace_in_file_returns (f o n : string) (w : world) (c : string) :
  file_text (fs w) f = Some c ->
  replace_in_file f o n w
  = Returned tt (mkWorld (stdin w) (stdout w)
                   (put (fs w) (components f) (File (Str.replace c o n)))
                   ((trace w ++ [EvRead f]) ++ [EvWrite f])).
Proof.
  intros H. destruct (file_text_nonempty _ _ _ H) as [Hf Hc].
  destruct w as [i out t tr]. unfold file_text in H. py_unfold. cbn [fs] in H. rewrite Hf.
  destruct (lookup t (components f)) as [[b|]|] eqn:El; try discriminate.
  injection H as <-. py_unfold. rewrite El. reflexivity.
Qed.

Lemma read_text_fails (f : string) (w : world) :
  file_text (fs w) f = None ->
  exists e, is_Exception e = true
            /\ read_text f w = Raised e (mkWorld (stdin w) (stdout w) (fs w) (trace w ++ [EvRead f])).
Proof.
  intros H. destruct w as [i out t tr]. unfold file_text in H. py_unfold. cbn [fs] in H.
  assert (Hm : is_Exception (missing t f) = true).
  { unfold missing. now destruct (existsb _ _). }
  destruct (f =? "").
  - now exists (missing t f).
  - destruct (lookup t (components f)) as [[b|]|] eqn:El; try discriminate.
    + now exists (eisdir f).
    + now exists (missing t f).
Qed.

Lemma replace_in_file_exits (f o n : string) (w : world) :
  file_text (fs w) f = None ->
  exists diag,
    replace_in_file f o n w
    = Raised (SystemExit None)
        (mkWorld (stdin w) (stdout w ++ diag ++ String Str.LF "") (fs w)
           (trace w ++ [EvRead f]))
    /\ (diag = "Error: " ++ f ++ " not found."
        \/ exists e, is_Exception e = true /\ diag = "An error occurred: " ++ str e).
Proof.
  intros H. destruct (read_text_fails f w H) as (e & He & Hr).
  destruct (except_exits f e (mkWorld (stdin w) (stdout w) (fs w) (trace w ++ [EvRead f])) He)
    as (h & diag & Hh & Hw & Hd).
  exists diag. split.
  - unfold replace_in_file, try_except. unfold bind at 1. rewrite Hr, Hh. exact Hw.
  - destruct Hd as [-> | ->]; [now left | right; now exists e].
Qed.

Lemma stored_put_same (t : tree) (raw c : string) :
  components raw <> [] -> stored (put t (components raw) (File c)) raw = Some c.
Proof. intros H. unfold stored. now rewrite lookup_put_same. Qed.

Lemma replace_absent (s old new : string) :
  Str.contains old s = false -> Str.replace s old new = s.
Proof.
  destruct old as [|o old'].
  - destruct s; discriminate.
  - apply replace_scan_absent.
Qed.

Lemma universal_newlines_no_cr (s : string) :
  Str.has_char Str.CR s = false -> Str.universal_newlines s = s.
Proof.
  unfold Str.universal_newlines. induction s as [|a s IH]; [reflexivity|].
  simpl. rewrite orb_false_iff. intros [Ha Hs].
  rewrite Ha, andb_false_r. now rewrite IH.
Qed.

(* ===================================================================== *)
(** * C8: what [replace_in_file] writes *)
(* ===================================================================== *)

(** C8 as the specification states it fails for a content with a
    carriage return.  A file holding [a], a carriage return, a line feed
    and [b] is read in text mode as [a], a line feed and [b]: with a token
    that does not occur the file is written back changed, where the
    literal replace-all of its content is the content itself; the token
    made of the carriage return and the line feed occurs in the content
    and is not replaced; and a line feed is replaced in a content that has
    none. *)
Lemma replace_in_file_carriage_return_counterexample :
  let content := "a" ++ Str.crlf ++ "b" in
  let w0 := one_file_world "f.txt" content in
  let w1 := final_world (replace_in_file "f.txt" "x" "y" w0) in
  let w2 := final_world (replace_in_file "f.txt" Str.crlf "-" w0) in
  let lone := one_file_world "f.txt" ("a" ++ String Str.CR "b") in
  let w3 := final_world (replace_in_file "f.txt" (String Str.LF "") "-" lone) in
  stored (fs w0) "f.txt" = Some content
  /\ returned (replace_in_file "f.txt" "x" "y" w0) = true
  /\ stored (fs w1) "f.txt" = Some ("a" ++ String Str.LF "b")
  /\ literal_replace_all "x" "y" content content
  /\ ~ literal_replace_all "x" "y" content ("a" ++ String Str.LF "b")
  /\ literal_replace_all Str.crlf "-" content "a-b"
  /\ stored (fs w2) "f.txt" = Some ("a" ++ String Str.LF "b")
  /\ Str.contains (String Str.LF "") ("a" ++ String Str.CR "b") = false
  /\ stored (fs w3) "f.txt" = Some "a-b".
Proof.
  cbv zeta. repeat apply conj; try (vm_compute; reflexivity).
  - exact (literal_replace_all_complete "x" "y" ("a" ++ Str.crlf ++ "b")).
  - intros H. apply literal_replace_all_sound in H. vm_compute in H. discriminate H.
  - exact (literal_replace_all_complete Str.crlf "-" ("a" ++ Str.crlf ++ "b")).
Qed.

(** C8, amended.  For every file content [b] and every pair of tokens,
    [replace_in_file] reads the file, returns, and has written to the same
    path the text as read, which is [b] with each carriage return and line
    feed pair and each lone carriage return turned into a line feed, with
    every non-overlapping occurrence of the old token replaced by the new
    one, leftmost first, as a literal replace-all: that result is the only
    one the relation of the specification allows.  When [b] has no
    carriage return the text as read is [b] itself, and the file holds the
    literal replace-all of its content.  Nothing of the prior content
    stays and no other path changes. *)
Theorem replace_in_file_is_literal_replace_all
    (w : world) (filename old new b : string) :
  stored (fs w) filename = Some b ->
  let c := Str.universal_newlines b in
  exists w',
    replace_in_file filename old new w = Returned tt w'
    /\ stored (fs w') filename = Some (Str.replace c old new)
    /\ literal_replace_all old new c (Str.replace c old new)
    /\ (forall r, literal_replace_all old new c r -> r = Str.replace c old new)
    /\ (Str.has_char Str.CR b = false ->
        stored (fs w') filename = Some (Str.replace b old new)
        /\ literal_replace_all old new b (Str.replace b old new)
        /\ (forall r, literal_replace_all old new b r ->
                      stored (fs w') filename = Some r))
    /\ (forall q, q <> components filename -> lookup (fs w') q = lookup (fs w) q)
    /\ trace w' = (trace w ++ [EvRead filename; EvWrite filename])%list.
Proof.
  intros Hb c.
  assert (H : file_text (fs w) filename = Some c).
  { unfold stored in Hb. unfold file_text.
    destruct (lookup (fs w) (components filename)) as [[b'|]|]; try discriminate.
    now injection Hb as ->. }
  destruct (file_text_nonempty _ _ _ H) as [_ Hc].
  eexists. split; [apply (replace_in_file_returns filename old new w c H)|].
  cbn [fs trace].
  assert (Hs : stored (put (fs w) (components filename) (File (Str.replace c old new)))
                 filename = Some (Str.replace c old new))
    by now apply stored_put_same.
  split; [exact Hs|].
  split; [apply literal_replace_all_complete|].
  split; [apply literal_replace_all_sound|].
  split; [|split].
  - intros Hcr. rewrite Hs. subst c. rewrite (universal_newlines_no_cr b Hcr).
    split; [reflexivity|]. split; [apply literal_replace_all_complete|].
    intros r Hr. now rewrite (literal_replace_all_sound old new b r Hr).
  - intros q Hq. apply lookup_put_other.
    apply not_true_iff_false. intros E. now apply path_eqb_eq in E.
  - now rewrite <- app_assoc.
Qed.

Lemma replace_in_file_is_literal_replace_all_witness :
  let w := one_file_world "notes.txt" "xabababy" in
  exists w',
    replace_in_file "notes.txt" "ab" "-" w = Returned tt w'
    /\ stored (fs w') "notes.txt" = Some "x---y"
    /\ literal_replace_all "ab" "-" "xabababy" "x---y"
    /\ (forall r, literal_replace_all "ab" "-" "xabababy" r -> r = "x---y")
    /\ (Str.has_char Str.CR "xabababy" = false ->
        stored (fs w') "notes.txt" = Some "x---y"
        /\ literal_replace_all "ab" "-" "xabababy" "x---y"
        /\ (forall r, literal_replace_all "ab" "-" "xabababy" r ->
                      stored (fs w') "notes.txt" = Some r))
    /\ (forall q, q <> ["notes.txt"] -> lookup (fs w') q = lookup (fs w) q)
    /\ trace w' = ([] ++ [EvRead "notes.txt"; EvWrite "notes.txt"])%list.
Proof.
  exact (replace_in_file_is_literal_replace_all
           (one_file_world "notes.txt" "xabababy") "notes.txt" "ab" "-" "xabababy" eq_refl).
Defined.

(* ===================================================================== *)
(** * C9: the same substitution, twice *)
(* ===================================================================== *)

(** C9 as the specification states it fails: [b] does not contain [ab],
    yet replacing [ab] by [b] in a file holding [aab] gives [ab] the first
    time and [b] the second. *)
Lemma replace_twice_counterexample :
  let w0 := one_file_world "f.txt" "aab" in
  let w1 := final_world (replace_in_file "f.txt" "ab" "b" w0) in
  let w2 := final_world (replace_in_file "f.txt" "ab" "b" w1) in
  Str.contains "ab" "b" = false
  /\ stored (fs w1) "f.txt" = Some "ab"
  /\ stored (fs w2) "f.txt" = Some "b"
  /\ stored (fs w2) "f.txt" <> stored (fs w1) "f.txt".
Proof. vm_compute. repeat split. discriminate. Qed.

(** A carriage return written by the first pass is read back as a line
    feed by the second. *)
Example carriage_return_is_read_as_line_feed :
  let w0 := one_file_world "f.txt" "a" in
  let w1 := final_world (replace_in_file "f.txt" "a" (String Str.CR "") w0) in
  let w2 := final_world (replace_in_file "f.txt" "a" (String Str.CR "") w1) in
  Str.contains "a" (String Str.CR "") = false
  /\ stored (fs w1) "f.txt" = Some (String Str.CR "")
  /\ stored (fs w2) "f.txt" = Some (String Str.LF "").
Proof. vm_compute. repeat split. Qed.

(** C9, amended. When the content left by a first application holds no
    occurrence of the old token and no carriage return, a second
    application of the same substitution returns and leaves the file
    byte-identical. *)
Theorem replace_in_file_twice (w : world) (filename old new c1 : string) :
  let w1 := final_world (replace_in_file filename old new w) in
  let w2 := final_world (replace_in_file filename old new w1) in
  stored (fs w1) filename = Some c1 ->
  Str.contains old c1 = false ->
  Str.has_char Str.CR c1 = false ->
  returned (replace_in_file filename old new w1) = true
  /\ stored (fs w2) filename = Some c1.
Proof.
  intros w1 w2 Hs Hold Hcr. subst w2.
  assert (Ht : file_text (fs w1) filename = Some c1).
  { unfold stored in Hs. unfold file_text.
    destruct (lookup (fs w1) (components filename)) as [[b|]|]; try discriminate.
    injection Hs as ->. now rewrite universal_newlines_no_cr. }
  destruct (file_text_nonempty _ _ _ Ht) as [_ Hc].
  rewrite (replace_in_file_returns filename old new w1 c1 Ht).
  cbn [final_world returned fs]. split; [reflexivity|].
  rewrite replace_absent by exact Hold. now apply stored_put_same.
Qed.

Lemma replace_in_file_twice_witness :
  let w0 := one_file_world "f.txt" "a.b.c" in
  let w1 := final_world (replace_in_file "f.txt" "." "/" w0) in
  let w2 := final_world (replace_in_file "f.txt" "." "/" w1) in
  returned (replace_in_file "f.txt" "." "/" w1) = true
  /\ stored (fs w2) "f.txt" = Some "a/b/c".
Proof.
  exact (replace_in_file_twice (one_file_world "f.txt" "a.b.c") "f.txt" "." "/" "a/b/c"
           eq_refl eq_refl eq_refl).
Defined.

(* ===================================================================== *)
(** * The run, stage by stage *)
(* ===================================================================== *)

Ltac py_main :=
  cbv [main bind input when print exit raise ret negb stdin stdout fs trace].

Lemma main_invalid_name (w : world) (name : string) (rest : list string) :
  stdin w = name :: rest ->
  is_valid_java_class_name name = false ->
  main w = Raised (SystemExit None)
             (mkWorld rest
                ((stdout w ++ "Project name: ") ++ invalid_project_name_message ++ String Str.LF "")
                (fs w) (trace w)).
Proof.
  intros Hin Hv. destruct w as [i out t tr]. cbn [stdin] in Hin. subst i.
  py_main. rewrite Hv. reflexivity.
Qed.

Lemma main_invalid_package (w : world) (name package : string) (rest : list string) :
  stdin w = name :: package :: rest ->
  is_valid_java_class_name name = true ->
  is_valid_java_package package = false ->
  main w = Raised (SystemExit None)
             (mkWorld rest
                (((stdout w ++ "Project name: ") ++ "Project package: ")
                 ++ invalid_package_name_message ++ String Str.LF "")
                (fs w) (trace w)).
Proof.
  intros Hin Hv Hp. destruct w as [i out t tr]. cbn [stdin] in Hin. subst i.
  py_main. rewrite Hv, Hp. reflexivity.
Qed.

Lemma main_valid (w : world) (name package : string) (rest : list string) :
  stdin w = name :: package :: rest ->
  is_valid_java_class_name name = true ->
  is_valid_java_package package = true ->
  main w = scaffold name package (after_prompts w rest).
Proof.
  intros Hin Hv Hp. destruct w as [i out t tr]. cbn [stdin] in Hin. subst i.
  py_main. rewrite Hv, Hp. reflexivity.
Qed.

Lemma bind_returned {A B} {c : Py A} {k : A -> Py B} {w w' : world} {b : B} :
  bind c k w = Returned b w' ->
  exists a w1, c w = Returned a w1 /\ k a w1 = Returned b w'.
Proof.
  unfold bind. destruct (c w) as [a w1|e w1]; [|discriminate].
  intros H. now exists a, w1.
Qed.

Lemma bind_raised {A B} {c : Py A} (k : A -> Py B) {w w1 : world} {e : exn} :
  c w = Raised e w1 -> bind c k w = Raised e w1.
Proof. unfold bind. now intros ->. Qed.

Lemma bind_continue {A B} {c : Py A} (k : A -> Py B) {w w1 : world} {a : A} :
  c w = Returned a w1 -> bind c k w = k a w1.
Proof. unfold bind. now intros ->. Qed.

Lemma shutil_rmtree_cases (raw : string) (w : world) :
  (lookup (fs w) (components raw) = Some Dir
   /\ shutil_rmtree raw w
      = Returned tt (mkWorld (stdin w) (stdout w)
                       (remove_subtree (fs w) (components raw))
                       (trace w ++ [EvRmtree raw])))
  \/ (lookup (fs w) (components raw) <> Some Dir
      /\ exists e, is_Exception e = true
                   /\ shutil_rmtree raw w
                      = Raised e (mkWorld (stdin w) (stdout w) (fs w)
                                    (trace w ++ [EvRmtree raw]))).
Proof.
  destruct w as [i out t tr].
  cbv [shutil_rmtree bind record get_fs set_fs raise ret stdin stdout fs trace].
  destruct (lookup t (components raw)) as [[b|]|] eqn:El.
  - right. split; [discriminate|]. now exists (enotdir raw).
  - left. now split.
  - right. split; [discriminate|]. exists (missing t raw). split; [|reflexivity].
    unfold missing. now destruct (existsb _ _).
Qed.

(* ===================================================================== *)
(** * C4: an invalid project name *)
(* ===================================================================== *)

(** C4. When the project name read is one [is_valid_java_class_name]
    rejects, the run ends in validation: the message is printed, the
    script exits, no call to the file tree has been made and the tree is
    the one the run started with. *)
Theorem invalid_name_leaves_tree_untouched
    (w : world) (name : string) (rest : list string) :
  stdin w = name :: rest ->
  is_valid_java_class_name name = false ->
  exists w',
    main w = Raised (SystemExit None) w'
    /\ trace w' = trace w
    /\ fs w' = fs w
    /\ stdout w'
       = (stdout w ++ "Project name: ") ++ invalid_project_name_message ++ String Str.LF "".
Proof.
  intros Hin Hv. eexists. split; [exact (main_invalid_name w name rest Hin Hv)|].
  now repeat split.
Qed.

Lemma invalid_name_leaves_tree_untouched_witness :
  exists w',
    main (sample_world ["123app"; "org.bar"]) = Raised (SystemExit None) w'
    /\ trace w' = []
    /\ fs w' = sample_template
    /\ stdout w'
       = ("" ++ "Project name: ") ++ invalid_project_name_message ++ String Str.LF "".
Proof.
  exact (invalid_name_leaves_tree_untouched
           (sample_world ["123app"; "org.bar"]) "123app" ["org.bar"] eq_refl eq_refl).
Defined.

(* ===================================================================== *)
(** * C5: a template without its documentation directory *)
(* ===================================================================== *)

Lemma exception_exit_status (e : exn) (w : world) :
  is_Exception e = true -> exit_status (Raised e w) = 1.
Proof. destruct e; (discriminate || reflexivity). Qed.

Lemma pruning_without_docs (w : world) :
  lookup (fs w) (components "Ambassador/docs") = None ->
  exists e w',
    pruning w = Raised e w'
    /\ is_Exception e = true
    /\ (trace w' = (trace w ++ [EvRmtree "Ambassador/.git"])%list
        \/ trace w' = (trace w ++ [EvRmtree "Ambassador/.git"; EvRmtree "Ambassador/docs"])%list)
    /\ (forall q, is_under ["Ambassador"; ".git"] q = false -> fs w' q = fs w q).
Proof.
  intros Hdocs. unfold pruning.
  change (os_path_join "Ambassador" [".git"]) with "Ambassador/.git".
  change (os_path_join "Ambassador" ["docs"]) with "Ambassador/docs".
  destruct (shutil_rmtree_cases "Ambassador/.git" w) as [[_ Hgit] | [_ (e & He & Hgit)]].
  - rewrite (bind_continue _ Hgit).
    match goal with
    | |- context [bind (shutil_rmtree "Ambassador/docs") ?k ?w1] =>
        destruct (shutil_rmtree_cases "Ambassador/docs" w1) as [[Hd _] | [_ (e & He & Hd)]]
    end.
    + cbn [fs] in Hd. change (components "Ambassador/docs") with ["Ambassador"; "docs"] in *.
      change (components "Ambassador/.git") with ["Ambassador"; ".git"] in *.
      unfold lookup, remove_subtree in Hd. simpl in Hd, Hdocs. congruence.
    + rewrite (bind_raised _ Hd). do 2 eexists. split; [reflexivity|].
      cbn [trace fs]. repeat split.
      * exact He.
      * right. now rewrite <- app_assoc.
      * intros q Hq. unfold remove_subtree.
        change (components "Ambassador/.git") with ["Ambassador"; ".git"]. now rewrite Hq.
  - rewrite (bind_raised _ Hgit). do 2 eexists. split; [reflexivity|].
    cbn [trace fs]. repeat split; [exact He | now left].
Qed.

(** C5. When the documentation directory is absent as pruning starts, the
    run stops there with an uncaught error: the only calls made to the
    file tree are the removal of the version-control directory and, when
    that one succeeded, the failed removal of the documentation directory.
    No move, no directory creation, no read and no write follows, and
    outside the version-control directory the tree is unchanged. *)
Theorem missing_docs_stops_the_run
    (w : world) (name package : string) (rest : list string) :
  stdin w = name :: package :: rest ->
  is_valid_java_class_name name = true ->
  is_valid_java_package package = true ->
  lookup (fs w) (components "Ambassador/docs") = None ->
  exists e w',
    main w = Raised e w'
    /\ is_Exception e = true
    /\ exit_status (main w) = 1
    /\ (trace w' = (trace w ++ [EvRmtree "Ambassador/.git"])%list
        \/ trace w' = (trace w ++ [EvRmtree "Ambassador/.git"; EvRmtree "Ambassador/docs"])%list)
    /\ (forall q, is_under ["Ambassador"; ".git"] q = false -> fs w' q = fs w q).
Proof.
  intros Hin Hv Hp Hdocs.
  rewrite (main_valid w name package rest Hin Hv Hp).
  destruct (pruning_without_docs (after_prompts w rest) Hdocs) as (e & w' & Hr & He & Ht & Hf).
  exists e, w'. unfold scaffold. rewrite (bind_raised _ Hr).
  repeat split; [exact He | now apply exception_exit_status | exact Ht | exact Hf].
Qed.

Lemma missing_docs_stops_the_run_witness :
  let w := mkWorld ["Foo"; "org.bar"] "" sample_without_docs [] in
  exists e w',
    main w = Raised e w'
    /\ is_Exception e = true
    /\ exit_status (main w) = 1
    /\ (trace w' = ([] ++ [EvRmtree "Ambassador/.git"])%list
        \/ trace w' = ([] ++ [EvRmtree "Ambassador/.git"; EvRmtree "Ambassador/docs"])%list)
    /\ (forall q, is_under ["Ambassador"; ".git"] q = false -> fs w' q = sample_without_docs q).
Proof.
  exact (missing_docs_stops_the_run
           (mkWorld ["Foo"; "org.bar"] "" sample_without_docs []) "Foo" "org.bar" []
           eq_refl eq_refl eq_refl eq_refl).
Defined.

(* ===================================================================== *)
(** * C1: how the run ends *)
(* ===================================================================== *)

Lemma replace_in_file_returns_or_exits (f o n : string) :
  returns_or_exits (replace_in_file f o n).
Proof.
  intros w. destruct (file_text (fs w) f) as [c|] eqn:E.
  - left. eexists. split; [exact (replace_in_file_returns f o n w c E) | reflexivity].
  - right. destruct (replace_in_file_exits f o n w E) as (diag & Hr & Hd).
    eexists. exists diag. split; [exact Hr|]. split; [reflexivity|].
    destruct Hd as [-> | Hd]; [left; now exists f | now right].
Qed.

Lemma seq_returns_or_exits (c1 c2 : Py unit) :
  returns_or_exits c1 -> returns_or_exits c2 -> returns_or_exits (c1 ;; c2).
Proof.
  intros H1 H2 w. destruct (H1 w) as [(w1 & Hr & Ho) | (w1 & diag & Hr & Ho & Hd)].
  - rewrite (bind_continue _ Hr). rewrite <- Ho. apply H2.
  - right. exists w1, diag. now rewrite (bind_raised _ Hr).
Qed.

Lemma substituting_returns_or_exits (project_name package_name : string) :
  returns_or_exits (substituting project_name package_name).
Proof.
  unfold substituting.
  repeat (apply seq_returns_or_exits; [apply replace_in_file_returns_or_exits|]).
  apply replace_in_file_returns_or_exits.
Qed.

(** C1 as the specification states it fails: after the invalid project
    name 123app the process ends with exit status zero. *)
Lemma invalid_name_exit_status_counterexample :
  is_valid_java_class_name "123app" = false
  /\ exit_status (main (sample_world ["123app"; "org.bar"])) = 0.
Proof. vm_compute. now split. Qed.

(** C1, amended. For every failure of the kinds named (an invalid project
    name, an invalid package, an error of [replace_in_file] during
    substitution, be it a missing file or another error) the process
    prints one short diagnostic line and ends by [exit()] called without a
    status, so with exit status zero; a run that reaches its end has exit
    status zero as well. *)
Theorem failures_print_and_exit_without_status (w : world) :
  (forall name rest,
      stdin w = name :: rest ->
      is_valid_java_class_name name = false ->
      exists w',
        main w = Raised (SystemExit None) w'
        /\ stdout w'
           = (stdout w ++ "Project name: ") ++ invalid_project_name_message ++ String Str.LF ""
        /\ exit_status (main w) = 0)
  /\ (forall name package rest,
         stdin w = name :: package :: rest ->
         is_valid_java_class_name name = true ->
         is_valid_java_package package = false ->
         exists w',
           main w = Raised (SystemExit None) w'
           /\ stdout w'
              = ((stdout w ++ "Project name: ") ++ "Project package: ")
                ++ invalid_package_name_message ++ String Str.LF ""
           /\ exit_status (main w) = 0)
  /\ (forall name package rest w3,
         stdin w = name :: package :: rest ->
         is_valid_java_class_name name = true ->
         is_valid_java_package package = true ->
         (pruning ;; renaming name ;; make_package_dirs name package) (after_prompts w rest)
         = Returned tt w3 ->
         returned (substituting name package w3) = false ->
         exists w' diag,
           main w = Raised (SystemExit None) w'
           /\ stdout w' = stdout w3 ++ diag ++ String Str.LF ""
           /\ diagnostic diag
           /\ exit_status (main w) = 0)
  /\ (forall filename original replacement,
         file_text (fs w) filename = None ->
         exists w' diag,
           replace_in_file filename original replacement w = Raised (SystemExit None) w'
           /\ stdout w' = stdout w ++ diag ++ String Str.LF ""
           /\ diagnostic diag)
  /\ (returned (main w) = true -> exit_status (main w) = 0).
Proof.
  repeat apply conj.
  - intros name rest Hin Hv. rewrite (main_invalid_name w name rest Hin Hv).
    eexists. now repeat split.
  - intros name package rest Hin Hv Hp.
    rewrite (main_invalid_package w name package rest Hin Hv Hp).
    eexists. now repeat split.
  - intros name package rest w3 Hin Hv Hp Hpre Hsub.
    rewrite (main_valid w name package rest Hin Hv Hp). unfold scaffold.
    apply bind_returned in Hpre as ([] & w1 & H1 & Hpre).
    apply bind_returned in Hpre as ([] & w2 & H2 & H3).
    rewrite (bind_continue _ H1), (bind_continue _ H2), (bind_continue _ H3).
    destruct (substituting_returns_or_exits name package w3)
      as [(w4 & Hr & _) | (w4 & diag & Hr & Ho & Hd)].
    + rewrite Hr in Hsub. discriminate.
    + rewrite (bind_raised _ Hr). exists w4, diag. now repeat split.
  - intros f o n Hf. destruct (replace_in_file_exits f o n w Hf) as (diag & Hr & Hd).
    eexists. exists diag. split; [exact Hr|]. split; [reflexivity|].
    destruct Hd as [-> | Hd]; [left; now exists f | now right].
  - destruct (main w) as [[] w'|e w']; [reflexivity | discriminate].
Qed.

Lemma failures_print_and_exit_without_status_witness :
  (exists w',
      main (sample_world ["123app"; "org.bar"]) = Raised (SystemExit None) w'
      /\ stdout w'
         = ("" ++ "Project name: ") ++ invalid_project_name_message ++ String Str.LF ""
      /\ exit_status (main (sample_world ["123app"; "org.bar"])) = 0)
  /\ (exists w',
         main (sample_world ["Foo"; "Org.bar"]) = Raised (SystemExit None) w'
         /\ stdout w'
            = (("" ++ "Project name: ") ++ "Project package: ")
              ++ invalid_package_name_message ++ String Str.LF ""
         /\ exit_status (main (sample_world ["Foo"; "Org.bar"])) = 0)
  /\ (exists w' diag,
         replace_in_file "Ambassador/META-INF/MANIFEST.MF" "a" "b"
           (mkWorld [] "" sample_without_manifest [])
         = Raised (SystemExit None) w'
         /\ stdout w' = "" ++ diag ++ String Str.LF ""
         /\ diagnostic diag).
Proof.
  split; [|split].
  - exact (proj1 (failures_print_and_exit_without_status (sample_world ["123app"; "org.bar"]))
             "123app" ["org.bar"] eq_refl eq_refl).
  - exact (proj1 (proj2 (failures_print_and_exit_without_status (sample_world ["Foo"; "Org.bar"])))
             "Foo" "Org.bar" [] eq_refl eq_refl eq_refl).
  - exact (proj1 (proj2 (proj2 (proj2
             (failures_print_and_exit_without_status (mkWorld [] "" sample_without_manifest [])))))
             "Ambassador/META-INF/MANIFEST.MF" "a" "b" eq_refl).
Defined.

(** A run on a template without its manifest: the diagnostic is printed
    during substitution and the exit status is zero. *)
Example missing_manifest_run :
  let o := main (mkWorld ["Foo"; "org.bar"] "" sample_without_manifest []) in
  returned o = false
  /\ exit_status o = 0
  /\ stdout (final_world o)
     = "Project name: Project package: Error: Foo/META-INF/MANIFEST.MF not found."
       ++ String Str.LF "".
Proof. vm_compute. now repeat split. Qed.

(* ===================================================================== *)
(** * C2: the run for Foo and org.bar *)
(* ===================================================================== *)

(** ** Directories stay, written files are found again *)

Lemma makedirs_from_dir (raw : string) (rest : path) :
  forall (t : tree) (cur : path) (t' : tree),
    lookup t cur = Some Dir ->
    makedirs_from raw t cur rest = inr t' ->
    lookup t' (cur ++ rest)%list = Some Dir.
Proof.
  induction rest as [|x rest IH]; intros t cur t' Hcur H.
  - simpl in H. injection H as <-. now rewrite app_nil_r.
  - simpl in H. replace (cur ++ x :: rest)%list with ((cur ++ [x]) ++ rest)%list
      by now rewrite <- app_assoc.
    destruct (lookup t (cur ++ [x])%list) as [[b|]|] eqn:E.
    + discriminate.
    + now apply (IH t).
    + apply (IH (put t (cur ++ [x])%list Dir)); [|exact H].
      apply lookup_put_same. now destruct cur.
Qed.

Lemma os_makedirs_returned (raw : string) (w w' : world) :
  os_makedirs raw w = Returned tt w' ->
  lookup (fs w') (components raw) = Some Dir.
Proof.
  destruct w as [i out t tr].
  cbv [os_makedirs bind record get_fs set_fs raise ret stdin stdout fs trace].
  destruct (raw =? ""); [discriminate|].
  destruct (makedirs_from raw t [] (components raw)) as [e|t'] eqn:E; [discriminate|].
  intros H. injection H as <-. cbn [fs].
  exact (makedirs_from_dir raw (components raw) t [] t' eq_refl E).
Qed.

Lemma seq_keeps_dirs (c1 c2 : Py unit) :
  keeps_dirs c1 -> keeps_dirs c2 -> keeps_dirs (c1 ;; c2).
Proof.
  intros H1 H2 w q Hq. specialize (H1 w q Hq). unfold bind.
  destruct (c1 w) as [[] w1|e w1]; cbn [final_world] in *; [now apply H2 | exact H1].
Qed.

Lemma put_file_keeps_dir (t : tree) (p q : path) (c : string) :
  lookup t p <> Some Dir -> lookup t q = Some Dir ->
  lookup (put t p (File c)) q = Some Dir.
Proof.
  intros Hp Hq. rewrite lookup_put_other; [exact Hq|].
  apply not_true_iff_false. intros E. apply path_eqb_eq in E. congruence.
Qed.

Lemma replace_in_file_keeps_dirs (f o n : string) : keeps_dirs (replace_in_file f o n).
Proof.
  intros w q Hq. destruct (file_text (fs w) f) as [c|] eqn:E.
  - rewrite (replace_in_file_returns f o n w c E). cbn [final_world fs].
    apply put_file_keeps_dir; [|exact Hq].
    unfold file_text in E. destruct (lookup (fs w) (components f)) as [[b|]|]; discriminate.
  - destruct (replace_in_file_exits f o n w E) as (diag & -> & _). exact Hq.
Qed.

Lemma substituting_keeps_dirs (project_name package_name : string) :
  keeps_dirs (substituting project_name package_name).
Proof.
  unfold substituting.
  repeat (apply seq_keeps_dirs; [apply replace_in_file_keeps_dirs|]).
  apply replace_in_file_keeps_dirs.
Qed.

Lemma write_text_returned (raw c : string) (w w' : world) :
  write_text raw c w = Returned tt w' ->
  fs w' = put (fs w) (components raw) (File c)
  /\ lookup (fs w) (components raw) <> Some Dir.
Proof.
  destruct w as [i out t tr].
  cbv [write_text bind record get_fs set_fs raise ret stdin stdout fs trace].
  destruct (raw =? ""); [discriminate|].
  destruct (lookup t (components raw)) as [[b|]|] eqn:E.
  - intros H. injection H as <-. split; [reflexivity | discriminate].
  - discriminate.
  - destruct (lookup t (parent (components raw))) as [[b|]|]; try discriminate.
    intros H. injection H as <-. split; [reflexivity | discriminate].
Qed.

Lemma returned_inv (o : outcome unit) :
  returned o = true -> o = Returned tt (final_world o).
Proof. destruct o as [[] w|e w]; [reflexivity | discriminate]. Qed.

Lemma stamping_foo (w w' : world) :
  stamping "Foo" "org.bar" w = Returned tt w' ->
  stored (fs w') "Foo/src/org/bar/Foo.java" = Some foo_java
  /\ stored (fs w') "Foo/src/org/bar/controllers/HomeController.java" = Some foo_home_controller
  /\ stored (fs w') "Foo/src/org/bar/controllers/DateTime.java" = Some foo_date_time
  /\ (lookup (fs w) (components "Foo/src/org/bar/controllers") = Some Dir ->
      lookup (fs w') (components "Foo/src/org/bar/controllers") = Some Dir).
Proof.
  unfold stamping.
  change (os_path_join (folder_path "Foo" "org.bar") ["Foo" ++ ".java"])
    with "Foo/src/org/bar/Foo.java".
  change (os_path_join (folder_path "Foo" "org.bar") ["controllers"; "HomeController.java"])
    with "Foo/src/org/bar/controllers/HomeController.java".
  change (os_path_join (folder_path "Foo" "org.bar") ["controllers"; "DateTime.java"])
    with "Foo/src/org/bar/controllers/DateTime.java".
  fold foo_java foo_home_controller foo_date_time.
  intros H.
  apply bind_returned in H as ([] & w1 & H1 & H).
  apply bind_returned in H as ([] & w2 & H2 & H3).
  apply write_text_returned in H1 as [E1 _].
  apply write_text_returned in H2 as [E2 _].
  apply write_text_returned in H3 as [E3 _].
  rewrite E3, E2, E1. unfold stored.
  repeat split; try reflexivity.
  intros Hd. exact Hd.
Qed.

(** C2. After a run that reaches its end for the project name Foo and the
    package org.bar, the directory Foo/src/org/bar/controllers exists and
    holds HomeController.java and DateTime.java, whose first non-blank line
    is the package declaration of org.bar.controllers; Foo/src/org/bar/Foo.java
    exists, its first line is the package declaration of org.bar, and it
    names org.bar.controllers.HomeController and org.bar.controllers.DateTime. *)
Theorem run_for_foo_org_bar (w : world) (rest : list string) :
  stdin w = "Foo" :: "org.bar" :: rest ->
  returned (main w) = true ->
  let t := fs (final_world (main w)) in
  lookup t (components "Foo/src/org/bar/controllers") = Some Dir
  /\ (exists c, stored t "Foo/src/org/bar/controllers/HomeController.java" = Some c
                /\ first_nonblank_line c = Some "package org.bar.controllers;")
  /\ (exists c, stored t "Foo/src/org/bar/controllers/DateTime.java" = Some c
                /\ first_nonblank_line c = Some "package org.bar.controllers;")
  /\ (exists c, stored t "Foo/src/org/bar/Foo.java" = Some c
                /\ first_line c = Some "package org.bar;"
                /\ Str.contains "org.bar.controllers.HomeController" c = true
                /\ Str.contains "org.bar.controllers.DateTime" c = true).
Proof.
  intros Hin Hret t. subst t. apply returned_inv in Hret.
  remember (final_world (main w)) as w' eqn:Ew'. clear Ew'.
  rewrite (main_valid w "Foo" "org.bar" rest Hin eq_refl eq_refl) in Hret.
  unfold scaffold in Hret.
  apply bind_returned in Hret as ([] & w1 & _ & H).
  apply bind_returned in H as ([] & w2 & _ & H).
  apply bind_returned in H as ([] & w3 & Hmk & H).
  apply bind_returned in H as ([] & w4 & Hsub & Hst).
  assert (Hd3 : lookup (fs w3) (components "Foo/src/org/bar/controllers") = Some Dir).
  { unfold make_package_dirs in Hmk. apply bind_returned in Hmk as ([] & w2' & _ & Hmk).
    exact (os_makedirs_returned _ _ _ Hmk). }
  assert (Hd4 : lookup (fs w4) (components "Foo/src/org/bar/controllers") = Some Dir).
  { pose proof (substituting_keeps_dirs "Foo" "org.bar" w3 _ Hd3) as K.
    now rewrite Hsub in K. }
  destruct (stamping_foo w4 w' Hst) as (E1 & E2 & E3 & Hd).
  split; [exact (Hd Hd4)|].
  split; [exists foo_home_controller; split; [exact E2 | vm_compute; reflexivity]|].
  split; [exists foo_date_time; split; [exact E3 | vm_compute; reflexivity]|].
  exists foo_java. split; [exact E1|]. vm_compute. repeat split.
Qed.

Lemma run_for_foo_org_bar_witness :
  let t := fs (final_world (main (sample_world ["Foo"; "org.bar"]))) in
  lookup t (components "Foo/src/org/bar/controllers") = Some Dir
  /\ (exists c, stored t "Foo/src/org/bar/controllers/HomeController.java" = Some c
                /\ first_nonblank_line c = Some "package org.bar.controllers;")
  /\ (exists c, stored t "Foo/src/org/bar/controllers/DateTime.java" = Some c
                /\ first_nonblank_line c = Some "package org.bar.controllers;")
  /\ (exists c, stored t "Foo/src/org/bar/Foo.java" = Some c
                /\ first_line c = Some "package org.bar;"
                /\ Str.contains "org.bar.controllers.HomeController" c = true
                /\ Str.contains "org.bar.controllers.DateTime" c = true).
Proof.
  apply (run_for_foo_org_bar (sample_world ["Foo"; "org.bar"]) []); [reflexivity|].
  vm_compute. reflexivity.
Defined.

(* ===================================================================== *)
(** * C3: the manifest after substitution *)
(* ===================================================================== *)

(** ** Occurrences across a character the token does not have *)

Lemma startswith_before_absent_char (x : ascii) (t : string) :
  Str.has_char x t = false ->
  forall u v, Str.startswith t (u ++ String x v) = Str.startswith t u.
Proof.
  induction t as [|b t IH]; intros Hx u v; [now destruct u|].
  simpl in Hx. apply orb_false_iff in Hx as [Hb Ht].
  destruct u as [|c u]; simpl.
  - now rewrite Hb.
  - now rewrite (IH Ht).
Qed.

Lemma contains_cons (t : string) (a : ascii) (s : string) :
  Str.contains t (String a s) = Str.startswith t (String a s) || Str.contains t s.
Proof. reflexivity. Qed.

Lemma contains_across_absent_char (x : ascii) (t : string) :
  Str.has_char x t = false ->
  forall u v, Str.contains t (u ++ String x v) = Str.contains t u || Str.contains t v.
Proof.
  intros Hx u v. induction u as [|c u IH].
  - change ("" ++ String x v) with (String x v). rewrite contains_cons.
    destruct t as [|b t]; [reflexivity|].
    simpl in Hx. apply orb_false_iff in Hx as [Hb _].
    simpl. now rewrite Hb.
  - change (String c u ++ String x v) with (String c (u ++ String x v)).
    rewrite !contains_cons, IH.
    change (String c (u ++ String x v)) with (String c u ++ String x v).
    rewrite (startswith_before_absent_char x t Hx). now rewrite orb_assoc.
Qed.

Lemma contains_after_prefix_without (x : ascii) (t p r : string) :
  Str.has_char x p = false ->
  Str.contains (String x t) (p ++ r) = Str.contains (String x t) r.
Proof.
  induction p as [|a p IH]; [reflexivity|]. simpl Str.has_char.
  rewrite orb_false_iff. intros [Ha Hp].
  change (String a p ++ r) with (String a (p ++ r)).
  rewrite contains_cons, (IH Hp). simpl. now rewrite Ascii.eqb_sym, Ha.
Qed.

Lemma contains_infix (a b c s : string) :
  Str.contains (a ++ b ++ c) s = true -> Str.contains b s = true.
Proof.
  rewrite !contains_iff. intros [i (u & v & -> & _)].
  exists (String.length (u ++ a)), (u ++ a), (c ++ v). split; [|reflexivity].
  now rewrite !append_assoc.
Qed.

Lemma startswith_longer (p q s : string) :
  Str.startswith (p ++ q) s = true -> Str.startswith p s = true.
Proof.
  rewrite !startswith_iff. intros [r ->]. exists (q ++ r). now rewrite append_assoc.
Qed.

(** ** The placeholder class name and the tail of the placeholder package *)

Lemma no_class_without_tail (s : string) :
  Str.contains placeholder_tail s = false -> Str.contains placeholder_class s = false.
Proof.
  intros H. apply not_true_iff_false. intros E.
  apply (contains_infix "com" placeholder_tail ".WebApplication") in E. congruence.
Qed.

Lemma no_package_without_tail (s : string) :
  Str.contains placeholder_tail s = false -> Str.contains placeholder_package s = false.
Proof.
  intros H. apply not_true_iff_false. intros E.
  apply (contains_infix "com" placeholder_tail "") in E. congruence.
Qed.

(** In front of a class name, a piece without the tail holds no start of
    another class name. *)
Lemma no_class_starts_in_piece (a : ascii) (s rest : string) :
  Str.contains placeholder_tail (String a s) = false ->
  Str.startswith placeholder_class (String a (s ++ placeholder_class ++ rest)) = false.
Proof.
  intros H. apply not_true_iff_false. intros E.
  destruct s as [|b [|c [|d s]]].
  - simpl in E. rewrite andb_false_r in E. discriminate.
  - simpl in E. rewrite !andb_false_r in E. discriminate.
  - simpl in E. rewrite !andb_false_r in E. discriminate.
  - assert (E' : Ascii.eqb "c" a && (Ascii.eqb "o" b && (Ascii.eqb "m" c &&
              Str.startswith (placeholder_tail ++ ".WebApplication")
                (String d s ++ String "c" ("om.example.app.WebApplication" ++ rest))))
              = true) by exact E.
    clear E. rename E' into E.
    set (z := Str.startswith (placeholder_tail ++ ".WebApplication") _) in E.
    destruct (Ascii.eqb "c" a), (Ascii.eqb "o" b), (Ascii.eqb "m" c); try discriminate E.
    cbn [andb] in E. subst z.
    apply (startswith_longer placeholder_tail ".WebApplication") in E.
    rewrite (startswith_before_absent_char "c" placeholder_tail eq_refl) in E.
    rewrite !contains_cons in H. rewrite E in H.
    rewrite !orb_true_r in H. discriminate.
Qed.

Lemma replace_scan_no_start (o : ascii) (old' new : string) (a : ascii) (s : string) :
  Str.startswith (String o old') (String a s) = false ->
  Str.replace_scan (String o old') new 0 (String a s)
  = String a (Str.replace_scan (String o old') new 0 s).
Proof.
  intros H.
  change (Str.replace_scan (String o old') new 0 (String a s))
    with (if Str.startswith (String o old') (String a s)
          then new ++ Str.replace_scan (String o old') new (String.length old') s
          else String a (Str.replace_scan (String o old') new 0 s)).
  now rewrite H.
Qed.

Lemma replace_class_unfold (s new : string) :
  Str.replace s placeholder_class new = Str.replace_scan placeholder_class new 0 s.
Proof. reflexivity. Qed.

Lemma replace_class_after_piece (new seg rest : string) :
  Str.contains placeholder_tail seg = false ->
  Str.replace (seg ++ placeholder_class ++ rest) placeholder_class new
  = seg ++ new ++ Str.replace rest placeholder_class new.
Proof.
  rewrite !replace_class_unfold.
  induction seg as [|a s IH]; intros H.
  - apply (replace_scan_leftmost "c" "om.example.app.WebApplication" new "" rest).
    intros j _. simpl. lia.
  - change (String a s ++ placeholder_class ++ rest)
      with (String a (s ++ placeholder_class ++ rest)).
    etransitivity.
    { exact (replace_scan_no_start "c" "om.example.app.WebApplication" new a _
               (no_class_starts_in_piece a s rest H)). }
    rewrite contains_cons in H. apply orb_false_iff in H as [_ H].
    simpl. f_equal. exact (IH H).
Qed.

Lemma replace_class_in_joined (new : string) (segs : list string) :
  forallb (fun g => negb (Str.contains placeholder_tail g)) segs = true ->
  Str.replace (Str.join placeholder_class segs) placeholder_class new = Str.join new segs.
Proof.
  unfold Str.join. induction segs as [|g segs IH]; [reflexivity|].
  simpl forallb. rewrite andb_true_iff, negb_true_iff. intros [Hg Hsegs].
  destruct segs as [|g' segs].
  - cbn [String.concat]. apply replace_absent. now apply no_class_without_tail.
  - rewrite !(string_concat_cons _ g) by discriminate.
    rewrite (replace_class_after_piece new g _ Hg). now rewrite (IH Hsegs).
Qed.

(** ** The new class name brings no tail of the placeholder *)

Lemma upper_not_e (p : ascii) : uppercase_letter p = true -> Ascii.eqb "e" p = false.
Proof.
  intros H. destruct (Ascii.eqb "e" p) eqn:E; [|reflexivity].
  apply Ascii.eqb_eq in E. subst p. vm_compute in H. discriminate.
Qed.

Lemma no_tail_in_new_name (project_name r : string) :
  is_valid_java_class_name project_name = true ->
  Str.contains placeholder_tail (("org.acme.widgets" ++ "." ++ project_name) ++ r)
  = Str.contains placeholder_tail r.
Proof.
  intros Hv. pose proof (proj1 (class_name_iff project_name) Hv) as Hg.
  pose proof (word_chars_no_dot project_name (project_name_word_chars project_name Hg)) as Hd.
  destruct project_name as [|p name]; [discriminate|].
  simpl in Hg. apply andb_true_iff in Hg as [Hp _].
  change (("org.acme.widgets" ++ "." ++ String p name) ++ r)
    with ("org.acme.widgets" ++ String "." (String p (name ++ r))).
  change (Str.contains placeholder_tail ("org.acme.widgets" ++ String "." (String p (name ++ r))))
    with (Ascii.eqb "e" p && Str.startswith "xample.app" (name ++ r)
          || Str.contains placeholder_tail (String p name ++ r)).
  rewrite (upper_not_e p Hp). simpl orb.
  apply (contains_after_prefix_without "." "example.app" (String p name) r Hd).
Qed.

Lemma no_tail_in_joined (project_name : string) (segs : list string) :
  is_valid_java_class_name project_name = true ->
  forallb (fun g => negb (Str.contains placeholder_tail g)) segs = true ->
  Str.contains placeholder_tail (Str.join ("org.acme.widgets" ++ "." ++ project_name) segs)
  = false.
Proof.
  intros Hv. unfold Str.join. induction segs as [|g segs IH]; [reflexivity|].
  simpl forallb. rewrite andb_true_iff, negb_true_iff. intros [Hg Hsegs].
  destruct segs as [|g' segs]; [exact Hg|].
  rewrite string_concat_cons by discriminate.
  change (("org.acme.widgets" ++ "." ++ project_name) ++ ?x)
    with (String "o" ("rg.acme.widgets" ++ "." ++ project_name ++ x)).
  rewrite (contains_across_absent_char "o" placeholder_tail eq_refl), Hg.
  specialize (IH Hsegs).
  rewrite <- (no_tail_in_new_name project_name _ Hv) in IH.
  exact IH.
Qed.
(** ** The manifest is rewritten once and then left alone *)

Lemma components_os_path_join (a : string) (ps : list string) :
  component a = true -> forallb component ps = true ->
  components (os_path_join a ps) = a :: ps.
Proof.
  intros Ha Hps. pose proof (proj1 (component_spec a) Ha) as [Hne Hns].
  rewrite os_path_join_components; [|exact Hne|now apply endswith_char_absent|exact Hps].
  apply components_concat. simpl. now rewrite Ha.
Qed.

Lemma component_with_suffix (a b : string) :
  component a = true -> Str.has_char "/" b = false -> component (a ++ b) = true.
Proof.
  intros Ha Hb. apply component_spec in Ha as [Hne Hns]. apply component_spec. split.
  - destruct a; [congruence | discriminate].
  - now rewrite has_char_append, Hns, Hb.
Qed.

Lemma seq_keeps_path (q : path) (c1 c2 : Py unit) :
  keeps_path q c1 -> keeps_path q c2 -> keeps_path q (c1 ;; c2).
Proof.
  intros H1 H2 w. specialize (H1 w). unfold bind.
  destruct (c1 w) as [[] w1|e w1]; cbn [final_world] in *; [now rewrite H2 | exact H1].
Qed.

Lemma replace_in_file_keeps_path (f o n : string) (q : path) :
  q <> components f -> keeps_path q (replace_in_file f o n).
Proof.
  intros Hq w. destruct (file_text (fs w) f) as [c|] eqn:E.
  - rewrite (replace_in_file_returns f o n w c E). cbn [final_world fs]. unfold put.
    destruct (path_eqb q (components f)) eqn:Eq; [|reflexivity].
    now apply path_eqb_eq in Eq.
  - now destruct (replace_in_file_exits f o n w E) as (diag & -> & _).
Qed.

Lemma other_files_keep_manifest (project_name : string) (f o n : string) (ps : list string) :
  component project_name = true ->
  forallb component ps = true ->
  hd "" ps <> "META-INF" ->
  f = os_path_join project_name ps ->
  keeps_path [project_name; "META-INF"; "MANIFEST.MF"] (replace_in_file f o n).
Proof.
  intros Hc Hps Hhd ->. apply replace_in_file_keeps_path.
  rewrite (components_os_path_join project_name ps Hc Hps).
  intros E. injection E as E. destruct ps; [discriminate|]. injection E as E _.
  simpl in Hhd. congruence.
Qed.

(** C3 as the specification states it fails: a manifest that names the
    placeholder package outside the placeholder class name keeps it. *)
Lemma manifest_counterexample :
  let manifest := "Main-Class: com.example.app.Main" in
  let t := put sample_template ["Ambassador"; "META-INF"; "MANIFEST.MF"] (File manifest) in
  let o := main (mkWorld ["Foo"; "org.acme.widgets"] "" t []) in
  Str.contains "com.example.app" manifest = true
  /\ returned o = true
  /\ stored (fs (final_world o)) "Foo/META-INF/MANIFEST.MF" = Some manifest.
Proof. vm_compute. repeat split. Qed.

(** Nor is it enough that the placeholder package stands only inside the
    placeholder class name: the end of a project name can complete what
    follows a class name. *)
Example manifest_completed_by_project_name :
  let manifest := "com.example.app.WebApplication.example.app" in
  let t := put sample_template ["Ambassador"; "META-INF"; "MANIFEST.MF"] (File manifest) in
  let o := main (mkWorld ["Xcom"; "org.acme.widgets"] "" t []) in
  returned o = true
  /\ stored (fs (final_world o)) "Xcom/META-INF/MANIFEST.MF"
     = Some "org.acme.widgets.Xcom.example.app".
Proof. vm_compute. repeat split. Qed.

(** C3, amended. Let the text of the manifest be pieces joined by the
    placeholder class name com.example.app.WebApplication, no piece
    holding the tail .example.app of the placeholder package.  After the
    substituting step of a run with package org.acme.widgets and a
    validated project name, however that step ends, the manifest holds the
    same pieces joined by org.acme.widgets.ProjectName, so every class
    reference reads org.acme.widgets.ProjectName, and com.example.app
    occurs nowhere in it. *)
Theorem manifest_after_substituting
    (w : world) (project_name : string) (pieces : list string) :
  is_valid_java_class_name project_name = true ->
  file_text (fs w) (os_path_join project_name ["META-INF"; "MANIFEST.MF"])
  = Some (Str.join "com.example.app.WebApplication" pieces) ->
  forallb (fun g => negb (Str.contains ".example.app" g)) pieces = true ->
  let w' := final_world (substituting project_name "org.acme.widgets" w) in
  let new := "org.acme.widgets" ++ "." ++ project_name in
  stored (fs w') (os_path_join project_name ["META-INF"; "MANIFEST.MF"])
  = Some (Str.join new pieces)
  /\ Str.contains "com.example.app" (Str.join new pieces) = false
  /\ (2 <= List.length pieces -> Str.contains new (Str.join new pieces) = true).
Proof.
  intros Hv Ht Hp w' new.
  pose proof (valid_name_component project_name Hv) as Hc.
  assert (Hxml : component (project_name ++ ".xml") = true)
    by now apply component_with_suffix.
  assert (Hm : components (os_path_join project_name ["META-INF"; "MANIFEST.MF"])
               = [project_name; "META-INF"; "MANIFEST.MF"])
    by now apply components_os_path_join.
  repeat split.
  - subst w'. unfold substituting.
    rewrite (bind_continue _ (replace_in_file_returns _ "com.example.app.WebApplication"
                                new w _ Ht)).
    unfold stored. rewrite Hm. unfold lookup.
    match goal with
    | |- context [final_world (?rest ?w1)] =>
        assert (K : keeps_path [project_name; "META-INF"; "MANIFEST.MF"] rest)
    end.
    { repeat (apply seq_keeps_path;
              [eapply other_files_keep_manifest;
               [exact Hc | | | reflexivity]; [simpl; now rewrite ?Hxml | discriminate] |]).
      eapply other_files_keep_manifest; [exact Hc | | | reflexivity];
        [reflexivity | discriminate]. }
    rewrite K. cbn [fs]. unfold put. rewrite path_eqb_refl.
    f_equal. f_equal. exact (replace_class_in_joined new pieces Hp).
  - apply no_package_without_tail. exact (no_tail_in_joined project_name pieces Hv Hp).
  - intros Hlen. destruct pieces as [|g [|g' pieces]]; simpl in Hlen; try lia.
    unfold Str.join. rewrite string_concat_cons by discriminate.
    apply contains_append_intro.
Qed.

Lemma manifest_after_substituting_witness :
  let w' := final_world (substituting "Foo" "org.acme.widgets" sample_before_substituting) in
  let new := "org.acme.widgets" ++ "." ++ "Foo" in
  let pieces := ["Manifest-Version: 1.0" ++ String Str.LF "Main-Class: "; String Str.LF ""] in
  stored (fs w') (os_path_join "Foo" ["META-INF"; "MANIFEST.MF"])
  = Some (Str.join new pieces)
  /\ Str.contains "com.example.app" (Str.join new pieces) = false
  /\ (2 <= List.length pieces -> Str.contains new (Str.join new pieces) = true).
Proof.
  apply (manifest_after_substituting sample_before_substituting "Foo"); vm_compute; reflexivity.
Defined.

(* ===================================================================== *)
(** * The calls to the file tree, one by one *)
(* ===================================================================== *)










(** ** Plans *)



















(* ===================================================================== *)
(** * X1 and X2: the order of the calls; failures before substitution *)
(* ===================================================================== *)





(* ===================================================================== *)
(** * X3 and X4: what pruning needs and what it does *)
(* ===================================================================== *)




Lemma remove_subtree_under (t : tree) (p q : path) :
  is_under p q = true -> remove_subtree t p q = None.
Proof. unfold remove_subtree. now intros ->. Qed.





(* ===================================================================== *)
(** * Paths below the package directory *)
(* ===================================================================== *)









(* ===================================================================== *)
(** * The package directories *)
(* ===================================================================== *)


















(* ===================================================================== *)
(** * What a call leaves alone *)
(* ===================================================================== *)



Lemma is_under_self_app (p l : path) : is_under p (p ++ l)%list = true.
Proof.
  unfold is_under. induction p as [|x p IH]; [reflexivity|].
  cbn [app strip_prefix]. now rewrite String.eqb_refl.
Qed.

Lemma is_under_other_head (y : string) (p : path) (x : string) (r : path) :
  x <> y -> is_under (y :: p) (x :: r) = false.
Proof.
  intros H. unfold is_under. cbn [strip_prefix].
  destruct (String.eqb_spec y x); [congruence | reflexivity].
Qed.

Lemma rename_subtree_other (t : tree) (s d q : path) :
  is_under s q = false -> is_under d q = false -> rename_subtree t s d q = t q.
Proof.
  unfold rename_subtree, is_under. intros Hs Hd.
  destruct (strip_prefix d q); [discriminate|].
  destruct (strip_prefix s q); [discriminate | reflexivity].
Qed.








(* ===================================================================== *)
(** * The run stays within the template and the project *)
(* ===================================================================== *)


















(* ===================================================================== *)
(** * The three source files *)
(* ===================================================================== *)


















(* ===================================================================== *)
(** * The first line of a written text *)
(* ===================================================================== *)









(* ===================================================================== *)
(** * The substitutions, rule by rule *)
(* ===================================================================== *)

























(* ===================================================================== *)
(** * One call of [replace_in_file] *)
(* ===================================================================== *)





(* ===================================================================== *)
(** * The two validators together *)
(* ===================================================================== *)






(* ===================================================================== *)
(** * Renaming *)
(* ===================================================================== *)

Lemma is_under_refl (p : path) : is_under p p = true.
Proof. rewrite <- (app_nil_r p) at 2. apply is_under_self_app. Qed.








(* ===================================================================== *)
(** * Renaming a template to a new name *)
(* ===================================================================== *)

Lemma rename_subtree_same_head (t : tree) (x : string) (s d r : path) :
  rename_subtree t (x :: s) (x :: d) (x :: r)
  = rename_subtree (fun q => t (x :: q)) s d r.
Proof.
  unfold rename_subtree, is_under. cbn [strip_prefix]. rewrite String.eqb_refl.
  reflexivity.
Qed.

Lemma rename_subtree_other_head (t : tree) (x y : string) (s d r : path) :
  y <> x -> rename_subtree t (x :: s) (x :: d) (y :: r) = t (y :: r).
Proof.
  intros H. apply rename_subtree_other; now apply is_under_other_head.
Qed.

Lemma rename_subtree_at_target (t : tree) (s d : path) :
  rename_subtree t s d d = t s.
Proof.
  unfold rename_subtree. pose proof (is_under_self_app d []) as H. unfold is_under in H.
  rewrite app_nil_r in H.
  assert (E : strip_prefix d d = Some []).
  { clear H. induction d as [|x d IH]; [reflexivity|].
    cbn [strip_prefix]. now rewrite String.eqb_refl. }
  now rewrite E, app_nil_r.
Qed.

Lemma rename_subtree_at_source (t : tree) (s d : path) :
  is_under d s = false -> rename_subtree t s d s = None.
Proof.
  unfold rename_subtree, is_under. intros H.
  destruct (strip_prefix d s); [discriminate|].
  pose proof (is_under_refl s) as R. unfold is_under in R.
  now destruct (strip_prefix s s).
Qed.








(* ===================================================================== *)
(** * No template is left behind *)
(* ===================================================================== *)




